(** * The PyPI upload plugin: validation and invocation core

    A shallow embedding of [plugin.go]: the IP classifier [isPrivateIP], the
    URL validator [validateRepositoryURL], the path validator
    [validateDistPath], the configuration resolver [parseConfig], the command
    builder [buildTwineArgs] and the orchestrator [uploadPackage] / [Execute].

    Go strings are byte strings: [string] with 8-bit [ascii] characters.
    An address ([net.IP], a byte slice) is a [list byte].  An [error] value is
    identified with the text its [Error()] method prints, a nil-able [error]
    is an [option error].  The two effects of the program, the DNS lookup and
    the run of the upload tool, are recorded in a log of events by a small
    writer monad, and answered by an explicit [World]. *)

From Stdlib Require Import Strings.String Strings.Ascii Strings.Byte.
From Stdlib Require Import Lists.List NArith Arith Lia Bool.
From stdpp Require Import gmap strings.
Import ListNotations.

Local Open Scope string_scope.
Local Open Scope bool_scope.

(** ** The functions of Go's [strings] package that the plugin calls *)

Module Strings.

(** [strings.HasPrefix(s, prefix)] *)
Definition HasPrefix (s prefix : string) : bool := String.prefix prefix s.

(** [strings.HasSuffix(s, suffix)] *)
Definition HasSuffix (s suffix : string) : bool :=
  let n := String.length s in
  let k := String.length suffix in
  (k <=? n)%nat && String.eqb (String.substring (n - k) k s) suffix.

(** [strings.TrimPrefix(s, prefix)]: [s] without the leading [prefix], or
    [s] itself when it does not start with it. *)
Definition TrimPrefix (s prefix : string) : string :=
  if HasPrefix s prefix
  then String.substring (String.length prefix)
                        (String.length s - String.length prefix) s
  else s.

(** [strings.Contains(s, substr)] *)
Fixpoint Contains (s substr : string) : bool :=
  String.prefix substr s ||
  match s with
  | EmptyString => false
  | String _ rest => Contains rest substr
  end.

(** [strings.ReplaceAll(s, old, new)] for a non-empty [old]: the
    non-overlapping occurrences of [old], found from the left, are replaced.
    [skip] counts the bytes of a matched occurrence still to be dropped. *)
Fixpoint replace_from (s old new : string) (skip : nat) : string :=
  match s with
  | EmptyString => EmptyString
  | String c rest =>
      match skip with
      | S k => replace_from rest old new k
      | O =>
          if String.prefix old s
          then new ++ replace_from rest old new (String.length old - 1)
          else String c (replace_from rest old new 0)
      end
  end.

Definition ReplaceAll (s old new : string) : string := replace_from s old new 0.

(** [strings.LastIndexByte(s, c)], [None] for Go's -1. *)
Fixpoint LastIndexByte (s : string) (c : ascii) : option nat :=
  match s with
  | EmptyString => None
  | String d rest =>
      match LastIndexByte rest c with
      | Some i => Some (S i)
      | None => if Ascii.eqb d c then Some 0 else None
      end
  end.

(** The slice expressions [s[i:]] and [s[:i]]. *)
Definition from (i : nat) (s : string) : string :=
  String.substring i (String.length s - i) s.
Definition upto (i : nat) (s : string) : string := String.substring 0 i s.

(** Cutting [s] at every [sep], as [strings.Split] does for a one-byte
    separator. *)
Fixpoint Split (s : string) (sep : ascii) : list string :=
  match s with
  | EmptyString => [EmptyString]
  | String c rest =>
      if Ascii.eqb c sep then EmptyString :: Split rest sep
      else match Split rest sep with
           | [] => [String c EmptyString]
           | x :: xs => String c x :: xs
           end
  end.

End Strings.

(** ** [path/filepath] on a POSIX host *)

Module Filepath.

Definition Separator : ascii := "/"%char.

Definition IsPathSeparator (c : ascii) : bool := Ascii.eqb c Separator.

(** [filepath.IsAbs] on Unix: the path starts with a slash. *)
Definition IsAbs (path : string) : bool := Strings.HasPrefix path "/".

(** Is the next byte of the input the end of the input or a separator?  The
    test [r+1 == n || os.IsPathSeparator(path[r+1])] of [Clean]. *)
Definition atElementEnd (rest : string) : bool :=
  match rest with
  | EmptyString => true
  | String c _ => IsPathSeparator c
  end.

(** The backtracking loop of a [..] element:
    [for out.w > dotdot && !os.IsPathSeparator(out.index(out.w)) { out.w-- }]. *)
Fixpoint backtrack (out : string) (dotdot w : nat) : nat :=
  match w with
  | O => O
  | S w' =>
      if (dotdot <? w)%nat &&
         negb (match String.get w out with
               | Some c => IsPathSeparator c
               | None => false
               end)
      then backtrack out dotdot w'
      else w
  end.

(** The main loop of [Clean].  [path] is the input from index [r] on, [out]
    the bytes written so far (its length is [out.w]), [dotdot] the index
    where a [..] must stop.  [inElem] is set while the inner loop that
    copies a real path element is running; [element] is the default case of
    the switch. *)
Fixpoint cleanLoop (rooted : bool) (path : string) (inElem : bool)
         (out : string) (dotdot : nat) : string :=
  match path with
  | EmptyString => out
  | String c rest =>
      let w := String.length out in
      let element (_ : unit) :=
        (* real path element: add slash if needed, copy the element *)
        let out1 :=
          if (rooted && negb (w =? 1)%nat) || (negb rooted && negb (w =? 0)%nat)
          then out ++ String Separator EmptyString else out in
        cleanLoop rooted rest true (out1 ++ String c EmptyString) dotdot in
      if inElem then
        if IsPathSeparator c
        then cleanLoop rooted rest false out dotdot
        else cleanLoop rooted rest true (out ++ String c EmptyString) dotdot
      else if IsPathSeparator c then
        (* empty path element *)
        cleanLoop rooted rest false out dotdot
      else if Ascii.eqb c "."%char && atElementEnd rest then
        (* . element *)
        cleanLoop rooted rest false out dotdot
      else
        match rest with
        | String c2 rest2 =>
            if Ascii.eqb c "."%char && Ascii.eqb c2 "."%char && atElementEnd rest2
            then
              (* .. element: remove to last separator *)
              if (dotdot <? w)%nat then
                (* can backtrack *)
                cleanLoop rooted rest2 false
                          (Strings.upto (backtrack out dotdot (w - 1)) out) dotdot
              else if negb rooted then
                (* cannot backtrack, but not rooted, so append .. element *)
                let out1 :=
                  if (0 <? w)%nat then out ++ String Separator EmptyString else out in
                let out2 := out1 ++ ".." in
                cleanLoop rooted rest2 false out2 (String.length out2)
              else cleanLoop rooted rest2 false out dotdot
            else element tt
        | EmptyString => element tt
        end
  end.

(** [filepath.Clean] (no volume names, [FromSlash] is the identity). *)
Definition Clean (path : string) : string :=
  match path with
  | EmptyString => "."
  | String c rest =>
      let rooted := IsPathSeparator c in
      let out :=
        if rooted
        then cleanLoop true rest false (String Separator EmptyString) 1
        else cleanLoop false path false EmptyString 0 in
      (* Turn empty string into "." *)
      if (String.length out =? 0)%nat then "." else out
  end.

End Filepath.

(** ** Go's [net] package: addresses, networks and the address predicates *)

Module Net.

(** [type IP []byte]: 4 bytes for an IPv4 address, 16 for an IPv6 address
    (an IPv4 address may also come in its 16-byte IPv4-in-IPv6 form). *)
Definition IP : Type := list byte.
Definition IPMask : Type := list byte.

(** [type IPNet struct { IP IP; Mask IPMask }] *)
Record IPNet : Type := { IPNet_IP : IP; IPNet_Mask : IPMask }.

Definition IPv4len : nat := 4.
Definition IPv6len : nat := 16.

(** A number below 256 as a byte. *)
Definition byte_of_N (n : N) : byte :=
  match Byte.of_N n with Some b => b | None => x00 end.

(** [a & b] on bytes, as a number. *)
Definition band (a b : byte) : N := N.land (Byte.to_N a) (Byte.to_N b).

(** [bytealg.Equal] *)
Fixpoint bytesEqual (p q : list byte) : bool :=
  match p, q with
  | [], [] => true
  | a :: p', b :: q' => Byte.eqb a b && bytesEqual p' q'
  | _, _ => false
  end.

Definition v4InV6Prefix : list byte :=
  [x00; x00; x00; x00; x00; x00; x00; x00; x00; x00; xff; xff].

Definition IPv6loopback : IP :=
  [x00; x00; x00; x00; x00; x00; x00; x00; x00; x00; x00; x00; x00; x00; x00; x01].

Definition isZeros (p : list byte) : bool := forallb (Byte.eqb x00) p.
Definition allFF (p : list byte) : bool := forallb (Byte.eqb xff) p.

(** [ip.To4()], [None] for Go's nil. *)
Definition To4 (ip : IP) : option IP :=
  if (length ip =? IPv4len)%nat then Some ip
  else if (length ip =? IPv6len)%nat && isZeros (firstn 10 ip) &&
          Byte.eqb (nth 10 ip x00) xff && Byte.eqb (nth 11 ip x00) xff
  then Some (skipn 12 ip)
  else None.

(** [ip.Equal(x)] *)
Definition Equal (ip x : IP) : bool :=
  if (length ip =? length x)%nat then bytesEqual ip x
  else if (length ip =? IPv4len)%nat && (length x =? IPv6len)%nat
  then bytesEqual (firstn 12 x) v4InV6Prefix && bytesEqual ip (skipn 12 x)
  else if (length ip =? IPv6len)%nat && (length x =? IPv4len)%nat
  then bytesEqual (firstn 12 ip) v4InV6Prefix && bytesEqual (skipn 12 ip) x
  else false.

(** The [i]-th byte of an address, as a number. *)
Definition at_ (ip : IP) (i : nat) : N := Byte.to_N (nth i ip x00).

Definition IsLoopback (ip : IP) : bool :=
  match To4 ip with
  | Some ip4 => (at_ ip4 0 =? 127)%N
  | None => Equal ip IPv6loopback
  end.

Definition IsPrivate (ip : IP) : bool :=
  match To4 ip with
  | Some ip4 =>
      (at_ ip4 0 =? 10)%N ||
      ((at_ ip4 0 =? 172)%N && (N.land (at_ ip4 1) 240 =? 16)%N) ||
      ((at_ ip4 0 =? 192)%N && (at_ ip4 1 =? 168)%N)
  | None => (length ip =? IPv6len)%nat && (N.land (at_ ip 0) 254 =? 252)%N
  end.

Definition IsLinkLocalMulticast (ip : IP) : bool :=
  match To4 ip with
  | Some ip4 => (at_ ip4 0 =? 224)%N && (at_ ip4 1 =? 0)%N && (at_ ip4 2 =? 0)%N
  | None =>
      (length ip =? IPv6len)%nat && (at_ ip 0 =? 255)%N &&
      (N.land (at_ ip 1) 15 =? 2)%N
  end.

Definition IsLinkLocalUnicast (ip : IP) : bool :=
  match To4 ip with
  | Some ip4 => (at_ ip4 0 =? 169)%N && (at_ ip4 1 =? 254)%N
  | None =>
      (length ip =? IPv6len)%nat && (at_ ip 0 =? 254)%N &&
      (N.land (at_ ip 1) 192 =? 128)%N
  end.

(** [networkNumberAndMask]: the pair of nil slices is the pair of empty
    lists. *)
Definition networkNumberAndMask (n : IPNet) : IP * IPMask :=
  let ip :=
    match To4 (IPNet_IP n) with
    | Some ip4 => Some ip4
    | None => if (length (IPNet_IP n) =? IPv6len)%nat
              then Some (IPNet_IP n) else None
    end in
  match ip with
  | None => ([], [])
  | Some ip =>
      let m := IPNet_Mask n in
      if (length m =? IPv4len)%nat then
        if (length ip =? IPv4len)%nat then (ip, m) else ([], [])
      else if (length m =? IPv6len)%nat then
        if (length ip =? IPv4len)%nat then (ip, skipn 12 m) else (ip, m)
      else ([], [])
  end.

(** The comparison loop of [Contains]:
    [for i := 0; i < l; i++ { if nn[i]&m[i] != ip[i]&m[i] { return false } }]. *)
Fixpoint sameNetwork (nn : IP) (m : IPMask) (ip : IP) : bool :=
  match nn, m, ip with
  | a :: nn', k :: m', b :: ip' =>
      if negb (band a k =? band b k)%N then false else sameNetwork nn' m' ip'
  | _, _, _ => true
  end.

(** [n.Contains(ip)] *)
Definition Contains (n : IPNet) (ip : IP) : bool :=
  let (nn, m) := networkNumberAndMask n in
  let ip := match To4 ip with Some x => x | None => ip end in
  if negb (length ip =? length nn)%nat then false
  else sameNetwork nn m ip.

(** [CIDRMask(ones, bits)], [None] for nil. *)
Fixpoint maskBytes (l : nat) (n : N) : IPMask :=
  match l with
  | O => []
  | S l' =>
      if (8 <=? n)%N then xff :: maskBytes l' (n - 8)
      else byte_of_N (N.lxor 255 (N.shiftr 255 n)) :: maskBytes l' 0
  end.

Definition CIDRMask (ones : N) (bits : nat) : option IPMask :=
  if negb (bits =? 8 * IPv4len)%nat && negb (bits =? 8 * IPv6len)%nat then None
  else if (N.of_nat bits <? ones)%N then None
  else Some (maskBytes (bits / 8) ones).

(** [ip.Mask(mask)], [None] for nil. *)
Definition Mask (ip : IP) (mask : IPMask) : option IP :=
  let mask :=
    if (length mask =? IPv6len)%nat && (length ip =? IPv4len)%nat &&
       allFF (firstn 12 mask)
    then skipn 12 mask else mask in
  let ip :=
    if (length mask =? IPv4len)%nat && (length ip =? IPv6len)%nat &&
       bytesEqual (firstn 12 ip) v4InV6Prefix
    then skipn 12 ip else ip in
  if negb (length ip =? length mask)%nat then None
  else Some (map (fun bm => byte_of_N (band (fst bm) (snd bm))) (combine ip mask)).

(** *** Reading a network in CIDR notation

    [net.ParseCIDR] for the textual forms the plugin's tables use: a
    dotted-decimal IPv4 address or an IPv6 address of hexadecimal groups
    with at most one [::], followed by [/] and a decimal prefix length.
    (Zones and an embedded dotted-decimal tail are not read.) *)

Definition digitVal (c : ascii) : option N :=
  let n := N_of_ascii c in
  if (48 <=? n)%N && (n <=? 57)%N then Some (n - 48)%N else None.

Definition hexVal (c : ascii) : option N :=
  let n := N_of_ascii c in
  if (48 <=? n)%N && (n <=? 57)%N then Some (n - 48)%N
  else if (97 <=? n)%N && (n <=? 102)%N then Some (n - 87)%N
  else if (65 <=? n)%N && (n <=? 70)%N then Some (n - 55)%N
  else None.

Fixpoint number (val : ascii -> option N) (base : N) (s : string) (acc : N)
  : option N :=
  match s with
  | EmptyString => Some acc
  | String c rest =>
      match val c with
      | Some d => number val base rest (acc * base + d)%N
      | None => None
      end
  end.

(** A non-empty run of decimal digits. *)
Definition dtoi (s : string) : option N :=
  if String.eqb s "" then None else number digitVal 10 s 0.

(** One to four hexadecimal digits. *)
Definition xtoi (s : string) : option N :=
  if String.eqb s "" || (4 <? String.length s)%nat then None
  else number hexVal 16 s 0.

(** A field of a dotted-decimal address: at most 255, no leading zero. *)
Definition v4field (s : string) : option byte :=
  if (1 <? String.length s)%nat && Strings.HasPrefix s "0" then None
  else match dtoi s with
       | Some n => Byte.of_N n
       | None => None
       end.

Fixpoint allSome {A : Type} (l : list (option A)) : option (list A) :=
  match l with
  | [] => Some []
  | None :: _ => None
  | Some a :: l' =>
      match allSome l' with Some r => Some (a :: r) | None => None end
  end.

Definition parseIPv4 (s : string) : option IP :=
  match allSome (map v4field (Strings.Split s "."%char)) with
  | Some ([_; _; _; _] as ip) => Some ip
  | _ => None
  end.

(** A 16-bit group as two bytes. *)
Definition groupBytes (n : N) : list byte :=
  [byte_of_N (n / 256)%N; byte_of_N (n mod 256)%N].

(** The groups before and after the [::], when there is one. *)
Fixpoint splitAtEmpty (l : list string) : list string * option (list string) :=
  match l with
  | [] => ([], None)
  | x :: l' =>
      if String.eqb x "" then ([], Some l')
      else let (a, b) := splitAtEmpty l' in (x :: a, b)
  end.

Definition v6groups (l : list string) : option (list byte) :=
  match allSome (map xtoi l) with
  | Some ns => Some (concat (map groupBytes ns))
  | None => None
  end.

Definition parseIPv6 (s : string) : option IP :=
  let gs := Strings.Split s ":"%char in
  (* a leading or trailing colon must be half of a [::] *)
  let gs1 :=
    match gs with
    | x :: y :: rest =>
        if String.eqb x "" then (if String.eqb y "" then Some (y :: rest) else None)
        else Some gs
    | _ => Some gs
    end in
  let gs2 :=
    match gs1 with
    | None => None
    | Some l =>
        match rev l with
        | x :: y :: rest =>
            if String.eqb x ""
            then (if String.eqb y "" then Some (rev (y :: rest)) else None)
            else Some l
        | _ => Some l
        end
    end in
  match gs2 with
  | None => None
  | Some l =>
      match splitAtEmpty l with
      | (front, None) =>
          match v6groups front with
          | Some bs => if (length bs =? IPv6len)%nat then Some bs else None
          | None => None
          end
      | (front, Some back) =>
          match v6groups front, v6groups back with
          | Some fb, Some bb =>
              if (length fb + length bb <? IPv6len)%nat
              then Some (fb ++ repeat x00 (IPv6len - (length fb + length bb)) ++ bb)%list
              else None
          | _, _ => None
          end
      end
  end.

(** [netip.ParseAddr] followed by [As16]: the bit length of the address
    family and the 16-byte form of the address. *)
Definition ParseAddr (s : string) : option (nat * IP) :=
  if Strings.Contains s ":" then
    match parseIPv6 s with
    | Some ip => Some (128, ip)
    | None => None
    end
  else
    match parseIPv4 s with
    | Some ip4 => Some (32, (v4InV6Prefix ++ ip4)%list)
    | None => None
    end.

(** [net.ParseCIDR], the network half of its result; [None] for an error. *)
Definition ParseCIDR (s : string) : option IPNet :=
  match Strings.Split s "/"%char with
  | [addr; mask] =>
      match ParseAddr addr, dtoi mask with
      | Some (bits, addr16), Some n =>
          match CIDRMask n bits with
          | Some m =>
              match Mask addr16 m with
              | Some ip => Some {| IPNet_IP := ip; IPNet_Mask := m |}
              | None => None
              end
          | None => None
          end
      | _, _ => None
      end
  | _ => None
  end.

End Net.

(** ** [net/url]: the parsed URL and its host name *)

Module Url.

(** The fields of [url.URL] the plugin reads: [Scheme], and [Host], which
    is the host or host:port part. *)
Record URL : Type := { Scheme : string; Host : string }.

Fixpoint allBytes (f : ascii -> bool) (s : string) : bool :=
  match s with
  | EmptyString => true
  | String c rest => f c && allBytes f rest
  end.

Definition isDigit (c : ascii) : bool :=
  let n := N_of_ascii c in (48 <=? n)%N && (n <=? 57)%N.

(** [validOptionalPort]: empty, or a colon followed by digits only. *)
Definition validOptionalPort (port : string) : bool :=
  match port with
  | EmptyString => true
  | String c rest => Ascii.eqb c ":"%char && allBytes isDigit rest
  end.

(** [splitHostPort]: the port is cut off at the last colon when what
    follows it is a valid port, then the square brackets of an IPv6
    literal are removed. *)
Definition splitHostPort (hostPort : string) : string * string :=
  let (host, port) :=
    match Strings.LastIndexByte hostPort ":"%char with
    | Some colon =>
        if validOptionalPort (Strings.from colon hostPort)
        then (Strings.upto colon hostPort, Strings.from (colon + 1) hostPort)
        else (hostPort, EmptyString)
    | None => (hostPort, EmptyString)
    end in
  let host :=
    if Strings.HasPrefix host "[" && Strings.HasSuffix host "]"
    then String.substring 1 (String.length host - 2) host
    else host in
  (host, port).

(** [u.Hostname()] *)
Definition Hostname (u : URL) : string := fst (splitHostPort (Host u)).

End Url.

(** ** Errors, effects and the world the plugin runs in *)

(** An [error], identified with its message. *)
Definition error : Type := string.

(** A result of a fallible library call: the value, or the error. *)
Inductive result (A : Type) : Type :=
| Ok (a : A)
| Err (e : error).
Arguments Ok {A} a.
Arguments Err {A} e.

(** The effects the plugin performs. *)
Inductive Event : Type :=
| LookupIPCall (host : string)
| RunCall (name : string) (args : list string).

(** A computation that logs the effects it performs, in order. *)
Definition IO (A : Type) : Type := list Event * A.

Definition ret {A : Type} (a : A) : IO A := ([], a).

Definition bind {A B : Type} (m : IO A) (f : A -> IO B) : IO B :=
  let (l1, a) := m in
  let (l2, b) := f a in
  ((l1 ++ l2)%list, b).

Notation "x <- m ;; k" := (bind m (fun x => k))
  (at level 100, m at next level, right associativity).

Definition log {A : Type} (m : IO A) : list Event := fst m.
Definition value {A : Type} (m : IO A) : A := snd m.

(** Does the log record a run of a subprocess? *)
Definition isRunCall (e : Event) : bool :=
  match e with RunCall _ _ => true | LookupIPCall _ => false end.

Definition invokesExecutor {A : Type} (m : IO A) : bool := existsb isRunCall (log m).

(** [CommandExecutor]: the one-method interface; [Run] gives the combined
    output and the error.  (The context argument, which only carries
    cancellation, is left out.) *)
Record CommandExecutor : Type :=
  { Run : string -> list string -> string * option error }.

(** What lies outside the program: the URL parser of the standard library,
    the resolver, the environment variables and the processes a
    [RealCommandExecutor] starts. *)
Record World : Type := {
  url_Parse : string -> result Url.URL;
  net_LookupIP : string -> result (list Net.IP);
  os_Getenv : string -> string;
  exec_CombinedOutput : string -> list string -> string * option error
}.

(** Dynamically typed values of a [map[string]any]. *)
Inductive any : Type :=
| AString (s : string)
| ABool (b : bool)
| ANumber (n : N).

(** [plugin.Hook], a string type of the SDK. *)
Definition Hook : Type := string.

(** [plugin.ReleaseContext], of which the version is read. *)
Record ReleaseContext : Type := { Version : string }.

(** [plugin.ExecuteRequest] *)
Record ExecuteRequest : Type := {
  ReqHook : Hook;
  ReqConfig : gmap string any;
  ReqContext : ReleaseContext;
  ReqDryRun : bool
}.

(** [plugin.ExecuteResponse] *)
Record ExecuteResponse : Type := {
  Success : bool;
  Message : string;
  Error : string;
  Outputs : gmap string any
}.

(** [Config] holds the PyPI plugin configuration. *)
Record Config : Type := {
  Username : string;
  Password : string;
  Repository : string;
  DistPath : string;
  SkipExisting : bool
}.

(** [PyPIPlugin]: [cmdExecutor] is used for executing shell commands; if nil,
    a [RealCommandExecutor] is used. *)
Record PyPIPlugin : Type := { cmdExecutor : option CommandExecutor }.

Definition newline : string := String (ascii_of_nat 10) EmptyString.

(** ** The plugin *)

(** [distPathPattern], the regular expression [^[a-zA-Z0-9._/*-]+$]: one
    or more bytes, each a letter, a digit or one of [. _ / * -]. *)
Definition distPathByte (c : ascii) : bool :=
  let n := N_of_ascii c in
  ((97 <=? n)%N && (n <=? 122)%N) ||
  ((65 <=? n)%N && (n <=? 90)%N) ||
  ((48 <=? n)%N && (n <=? 57)%N) ||
  Ascii.eqb c "."%char || Ascii.eqb c "_"%char || Ascii.eqb c "/"%char ||
  Ascii.eqb c "*"%char || Ascii.eqb c "-"%char.

Definition distPathPattern_MatchString (s : string) : bool :=
  negb (String.eqb s "") && Url.allBytes distPathByte s.

(** Private IPv4 ranges *)
Definition privateRanges : list string :=
  [ "10.0.0.0/8";
    "172.16.0.0/12";
    "192.168.0.0/16";
    "127.0.0.0/8";
    "169.254.0.0/16"; (* Link-local *)
    "0.0.0.0/8" ].

(** Cloud metadata endpoints *)
Definition cloudMetadata : list string :=
  [ "169.254.169.254/32"; (* AWS/GCP/Azure metadata *)
    "fd00:ec2::254/128"   (* AWS IMDSv2 IPv6 *) ].

(** The loop over the ranges: a range that does not parse is skipped, the
    first one that contains the address ends the loop. *)
Fixpoint inRanges (ranges : list string) (ip : Net.IP) : bool :=
  match ranges with
  | [] => false
  | cidr :: rest =>
      match Net.ParseCIDR cidr with
      | None => inRanges rest ip
      | Some block => if Net.Contains block ip then true else inRanges rest ip
      end
  end.

(** [isPrivateIP] checks if an IP address is in a private/reserved range. *)
Definition isPrivateIP (ip : Net.IP) : bool :=
  let allRanges := (privateRanges ++ cloudMetadata)%list in
  if inRanges allRanges ip then true
  else if Net.IsLoopback ip || Net.IsLinkLocalUnicast ip ||
          Net.IsLinkLocalMulticast ip || Net.IsPrivate ip
  then true
  else false.

(** [validateDistPath] validates that a distribution path is safe. *)
Definition validateDistPath (path : string) : option error :=
  if String.eqb path "" then Some "dist path cannot be empty"
  else if (256 <? String.length path)%nat
  then Some "dist path too long (max 256 characters)"
  else if negb (distPathPattern_MatchString path)
  then Some "dist path contains invalid characters"
  else
    (* Clean the path for traversal check *)
    let cleaned := Filepath.Clean path in
    (* Check for path traversal attempts (excluding glob patterns) *)
    let pathWithoutGlob := Strings.ReplaceAll cleaned "*" "" in
    if Strings.HasPrefix pathWithoutGlob ".." ||
       Strings.Contains pathWithoutGlob (String Filepath.Separator EmptyString ++ "..")
    then Some "path traversal detected: cannot use '..' to escape working directory"
    else if Filepath.IsAbs path
    then Some "absolute paths are not allowed"
    else None.

(** [buildTwineArgs] constructs the command line arguments for twine upload. *)
Definition buildTwineArgs (cfg : Config) : list string :=
  let args := ["upload"] in
  let args := (args ++ ["--repository-url"; Repository cfg])%list in
  let args := (args ++ ["-u"; Username cfg])%list in
  let args := (args ++ ["-p"; Password cfg])%list in
  let args := if SkipExisting cfg then (args ++ ["--skip-existing"])%list else args in
  let args := (args ++ [DistPath cfg])%list in
  args.

(** Modelled from the spec: the validation builder of the SDK
    ([helpers.NewValidationBuilder], [AddError], [Build]) and its
    [plugin.ValidateResponse] are not part of the repository.  The outcome
    is an accumulator of violations keyed by the name of the field, in the
    order they were added, with an overall validity flag that holds when
    there is no violation. *)
Record ValidationError : Type := { Field : string; Violation : string }.

Record ValidateResponse : Type := { Valid : bool; Errors : list ValidationError }.

Definition ValidationBuilder : Type := list ValidationError.

Definition NewValidationBuilder : ValidationBuilder := [].

Definition AddError (vb : ValidationBuilder) (field message : string)
  : ValidationBuilder :=
  (vb ++ [{| Field := field; Violation := message |}])%list.

Definition Build (vb : ValidationBuilder) : ValidateResponse :=
  {| Valid := match vb with [] => true | _ :: _ => false end; Errors := vb |}.

Section Plugin.

Variable w : World.

(** [plugin.HookPostPublish], a constant of the SDK. *)
Variable HookPostPublish : Hook.

(** [net.LookupIP(host)], logged. *)
Definition LookupIP (host : string) : IO (result (list Net.IP)) :=
  ([LookupIPCall host], net_LookupIP w host).

(** [executor.Run(ctx, name, args...)], logged. *)
Definition runExecutor (e : CommandExecutor) (name : string) (args : list string)
  : IO (string * option error) :=
  ([RunCall name args], Run e name args).

Definition RealCommandExecutor : CommandExecutor :=
  {| Run := exec_CombinedOutput w |}.

(** [getExecutor] returns the command executor, defaulting to
    [RealCommandExecutor]. *)
Definition getExecutor (p : PyPIPlugin) : CommandExecutor :=
  match cmdExecutor p with
  | Some e => e
  | None => RealCommandExecutor
  end.

(** The loop [for _, ip := range ips { if isPrivateIP(ip) { return ... } }]:
    is its early return taken? *)
Fixpoint anyPrivate (ips : list Net.IP) : bool :=
  match ips with
  | [] => false
  | ip :: rest => if isPrivateIP ip then true else anyPrivate rest
  end.

(** [validateRepositoryURL] validates that a repository URL is safe (SSRF
    protection). *)
Definition validateRepositoryURL (rawURL : string) : IO (option error) :=
  if String.eqb rawURL "" then ret (Some "repository URL cannot be empty")
  else
    match url_Parse w rawURL with
    | Err err => ret (Some ("invalid URL: " ++ err))
    | Ok parsedURL =>
        let host := Url.Hostname parsedURL in
        (* Allow localhost for testing purposes *)
        let isLocalhost :=
          String.eqb host "localhost" || String.eqb host "127.0.0.1" ||
          String.eqb host "::1" in
        (* Require HTTPS for non-localhost URLs *)
        if negb (String.eqb (Url.Scheme parsedURL) "https") && negb isLocalhost
        then ret (Some ("only HTTPS URLs are allowed (got " ++
                        Url.Scheme parsedURL ++ ")"))
        (* Allow HTTP only for localhost *)
        else if negb (String.eqb (Url.Scheme parsedURL) "http") &&
                negb (String.eqb (Url.Scheme parsedURL) "https")
        then ret (Some ("only HTTP(S) URLs are allowed (got " ++
                        Url.Scheme parsedURL ++ ")"))
        (* For localhost, skip the private IP check *)
        else if isLocalhost then ret None
        else
          (* Resolve hostname to check for private IPs *)
          r <- LookupIP host ;;
          match r with
          | Err err => ret (Some ("failed to resolve hostname: " ++ err))
          | Ok ips =>
              if anyPrivate ips
              then ret (Some "URLs pointing to private networks are not allowed")
              else ret None
          end
    end.

(** [validateConfig] performs security validation on the configuration. *)
Definition validateConfig (cfg : Config) : IO (option error) :=
  (* Validate repository URL *)
  e1 <- validateRepositoryURL (Repository cfg) ;;
  match e1 with
  | Some err => ret (Some ("invalid repository URL: " ++ err))
  | None =>
      (* Validate dist path *)
      match validateDistPath (DistPath cfg) with
      | Some err => ret (Some ("invalid dist path: " ++ err))
      | None =>
          (* Validate credentials are present *)
          if String.eqb (Username cfg) "" then ret (Some "username is required")
          else if String.eqb (Password cfg) "" then ret (Some "password is required")
          else ret None
      end
  end.

(** [uploadPackage] executes twine upload with the configured options.  The
    result is the response and the Go-level error. *)
Definition uploadPackage (p : PyPIPlugin) (cfg : Config)
           (releaseCtx : ReleaseContext) (dryRun : bool)
  : IO (ExecuteResponse * option error) :=
  (* Validate configuration *)
  verr <- validateConfig cfg ;;
  match verr with
  | Some err =>
      ret ({| Success := false;
              Message := "";
              Error := "configuration validation failed: " ++ err;
              Outputs := ∅ |}, None)
  | None =>
      let version := Strings.TrimPrefix (Version releaseCtx) "v" in
      if dryRun then
        ret ({| Success := true;
                Message := "Would upload package to " ++ Repository cfg;
                Error := "";
                Outputs :=
                  <["repository" := AString (Repository cfg)]>
                  (<["dist_path" := AString (DistPath cfg)]>
                  (<["skip_existing" := ABool (SkipExisting cfg)]>
                  (<["version" := AString version]> ∅))) |}, None)
      else
        (* Build twine command arguments *)
        let args := buildTwineArgs cfg in
        (* Execute twine upload *)
        let executor := getExecutor p in
        r <- runExecutor executor "twine" args ;;
        let (output, err) := r in
        match err with
        | Some e =>
            ret ({| Success := false;
                    Message := "";
                    Error := "twine upload failed: " ++ e ++ newline ++
                             "Output: " ++ output;
                    Outputs := ∅ |}, None)
        | None =>
            ret ({| Success := true;
                    Message := "Successfully uploaded package to " ++ Repository cfg;
                    Error := "";
                    Outputs :=
                      <["repository" := AString (Repository cfg)]>
                      (<["dist_path" := AString (DistPath cfg)]>
                      (<["version" := AString version]>
                      (<["output" := AString output]> ∅))) |}, None)
        end
  end.

(** The type assertions [raw[key].(string)] and [raw[key].(bool)]: the
    value and whether the assertion holds. *)
Definition assertString (v : option any) : string * bool :=
  match v with
  | Some (AString s) => (s, true)
  | _ => (EmptyString, false)
  end.

Definition assertBool (v : option any) : bool * bool :=
  match v with
  | Some (ABool b) => (b, true)
  | _ => (false, false)
  end.

(** [parseConfig] parses the raw config map into a [Config]. *)
Definition parseConfig (raw : gmap string any) : Config :=
  let username :=
    let (v, ok) := assertString (raw !! "username") in
    if ok && negb (String.eqb v "") then v
    else let v := os_Getenv w "PYPI_USERNAME" in
         if negb (String.eqb v "") then v else EmptyString in
  let password :=
    let (v, ok) := assertString (raw !! "password") in
    if ok && negb (String.eqb v "") then v
    else let v := os_Getenv w "PYPI_PASSWORD" in
         if negb (String.eqb v "") then v else EmptyString in
  let repository :=
    let (v, ok) := assertString (raw !! "repository") in
    if ok && negb (String.eqb v "") then v else "https://upload.pypi.org/legacy/" in
  let distPath :=
    let (v, ok) := assertString (raw !! "dist_path") in
    if ok && negb (String.eqb v "") then v else "dist/*" in
  let skipExisting :=
    let (v, ok) := assertBool (raw !! "skip_existing") in
    if ok then v else false in
  {| Username := username;
     Password := password;
     Repository := repository;
     DistPath := distPath;
     SkipExisting := skipExisting |}.

(** [Execute] runs the plugin for a given hook. *)
Definition Execute (p : PyPIPlugin) (req : ExecuteRequest)
  : IO (ExecuteResponse * option error) :=
  let cfg := parseConfig (ReqConfig req) in
  if String.eqb (ReqHook req) HookPostPublish
  then uploadPackage p cfg (ReqContext req) (ReqDryRun req)
  else ret ({| Success := true;
               Message := "Hook " ++ ReqHook req ++ " not handled";
               Error := "";
               Outputs := ∅ |}, None).

(** [Validate] validates the plugin configuration.  The result is the report
    and the Go-level error. *)
Definition Validate (raw : gmap string any) : IO (ValidateResponse * option error) :=
  let vb := NewValidationBuilder in
  let cfg := parseConfig raw in
  (* Username and password are required (can come from env vars) *)
  let vb :=
    if String.eqb (Username cfg) ""
    then AddError vb "username"
                  "username is required (set via config or PYPI_USERNAME env var)"
    else vb in
  let vb :=
    if String.eqb (Password cfg) ""
    then AddError vb "password"
                  "password is required (set via config or PYPI_PASSWORD env var)"
    else vb in
  (* Validate repository URL *)
  vb <- (if negb (String.eqb (Repository cfg) "")
         then e <- validateRepositoryURL (Repository cfg) ;;
              ret (match e with
                   | Some err => AddError vb "repository" err
                   | None => vb
                   end)
         else ret vb) ;;
  (* Validate dist path *)
  let vb :=
    if negb (String.eqb (DistPath cfg) "")
    then match validateDistPath (DistPath cfg) with
         | Some err => AddError vb "dist_path" err
         | None => vb
         end
    else vb in
  ret (Build vb, None).

End Plugin.

(** The three host names [validateRepositoryURL] takes as local (its
    [isLocalhost]), by their text. *)
Definition localhostName (host : string) : bool :=
  String.eqb host "localhost" || String.eqb host "127.0.0.1" || String.eqb host "::1".

(** The traversal test of [validateDistPath]: the cleaned path, with every
    [*] removed, starts with [..] or contains a separator followed by [..]. *)
Definition detectsTraversal (path : string) : bool :=
  let pathWithoutGlob := Strings.ReplaceAll (Filepath.Clean path) "*" "" in
  Strings.HasPrefix pathWithoutGlob ".." ||
  Strings.Contains pathWithoutGlob (String Filepath.Separator EmptyString ++ "..").

(** [w] with another resolver. *)
Definition withResolver (w : World) (lookup : string -> result (list Net.IP)) : World :=
  {| url_Parse := url_Parse w;
     net_LookupIP := lookup;
     os_Getenv := os_Getenv w;
     exec_CombinedOutput := exec_CombinedOutput w |}.

(** What [uploadPackage] does after the validation gate, given the answer
    [verr] of [validateConfig]: the events and the result. *)
Definition afterGate (w : World) (p : PyPIPlugin) (cfg : Config)
           (releaseCtx : ReleaseContext) (dryRun : bool) (verr : option error)
  : IO (ExecuteResponse * option error) :=
  match verr with
  | Some err =>
      ([], ({| Success := false;
               Message := "";
               Error := "configuration validation failed: " ++ err;
               Outputs := ∅ |}, None))
  | None =>
      if dryRun then
        ([], ({| Success := true;
                 Message := "Would upload package to " ++ Repository cfg;
                 Error := "";
                 Outputs :=
                   <["repository" := AString (Repository cfg)]>
                   (<["dist_path" := AString (DistPath cfg)]>
                   (<["skip_existing" := ABool (SkipExisting cfg)]>
                   (<["version" := AString (Strings.TrimPrefix (Version releaseCtx) "v")]>
                    ∅))) |}, None))
      else
        ([RunCall "twine" (buildTwineArgs cfg)],
         (match snd (Run (getExecutor w p) "twine" (buildTwineArgs cfg)) with
          | Some e =>
              {| Success := false;
                 Message := "";
                 Error := "twine upload failed: " ++ e ++ newline ++ "Output: " ++
                          fst (Run (getExecutor w p) "twine" (buildTwineArgs cfg));
                 Outputs := ∅ |}
          | None =>
              {| Success := true;
                 Message := "Successfully uploaded package to " ++ Repository cfg;
                 Error := "";
                 Outputs :=
                   <["repository" := AString (Repository cfg)]>
                   (<["dist_path" := AString (DistPath cfg)]>
                   (<["version" := AString (Strings.TrimPrefix (Version releaseCtx) "v")]>
                   (<["output" :=
                        AString (fst (Run (getExecutor w p) "twine" (buildTwineArgs cfg)))]>
                    ∅))) |}
          end, None))
  end.

(** The violations [Validate] collects for a resolved configuration. *)
Definition violations (w : World) (cfg : Config) : list ValidationError :=
  ((if String.eqb (Username cfg) ""
    then [{| Field := "username";
             Violation := "username is required (set via config or PYPI_USERNAME env var)" |}]
    else []) ++
   (if String.eqb (Password cfg) ""
    then [{| Field := "password";
             Violation := "password is required (set via config or PYPI_PASSWORD env var)" |}]
    else []) ++
   match value (validateRepositoryURL w (Repository cfg)) with
   | Some err => [{| Field := "repository"; Violation := err |}]
   | None => []
   end ++
   match validateDistPath (DistPath cfg) with
   | Some err => [{| Field := "dist_path"; Violation := err |}]
   | None => []
   end)%list.

(** Does the path hold two dots with nothing but [*]s between them? *)
Definition adjacentDots (path : string) : bool :=
  Strings.Contains (Strings.ReplaceAll path "*" "") "..".

(** [w] with other processes behind the [RealCommandExecutor]. *)
Definition withProcesses (w : World)
           (run : string -> list string -> string * option error) : World :=
  {| url_Parse := url_Parse w;
     net_LookupIP := net_LookupIP w;
     os_Getenv := os_Getenv w;
     exec_CombinedOutput := run |}.

(** [w] with other environment variables. *)
Definition withEnv (w : World) (getenv : string -> string) : World :=
  {| url_Parse := url_Parse w;
     net_LookupIP := net_LookupIP w;
     os_Getenv := getenv;
     exec_CombinedOutput := exec_CombinedOutput w |}.

(** The runs of a subprocess that a log records, in order. *)
Definition runsOf (l : list Event) : list Event := List.filter isRunCall l.

(** Is the value a non-empty string?  The test [ok && v != ""] that follows a
    type assertion [raw[key].(string)]. *)
Definition nonEmptyString (v : option any) : option string :=
  match v with
  | Some (AString s) => if String.eqb s "" then None else Some s
  | _ => None
  end.

(** The shell metacharacters of the injection attempts, and the blank. *)
Definition shellMeta : list ascii :=
  [";"; "|"; "`"; "$"; "("; ")"; " "; "&"; "<"; ">"; "'"]%char.

(** The bytes of a string. *)
Fixpoint bytesOf (s : string) : list ascii :=
  match s with
  | EmptyString => []
  | String c rest => c :: bytesOf rest
  end.

(** ** IPv4 blocks, as sets of 32-bit numbers

    The reading of CIDR notation that the classifier is compared with: an
    address is in [base/len] when its [len] leading bits are those of
    [base]. *)

Definition quad (a b c d : N) : N := (a * 2 ^ 24 + b * 2 ^ 16 + c * 2 ^ 8 + d)%N.

Definition number4 (a b c d : byte) : N :=
  quad (Byte.to_N a) (Byte.to_N b) (Byte.to_N c) (Byte.to_N d).

Definition inBlock4 (base len x : N) : Prop :=
  N.shiftr x (32 - len) = N.shiftr base (32 - len).

(** 10.0.0.0/8, 172.16.0.0/12, 192.168.0.0/16, 127.0.0.0/8, 169.254.0.0/16,
    0.0.0.0/8 and 169.254.169.254/32. *)
Definition disallowedBlocks4 : list (N * N) :=
  [ (quad 10 0 0 0, 8); (quad 172 16 0 0, 12); (quad 192 168 0 0, 16);
    (quad 127 0 0 0, 8); (quad 169 254 0 0, 16); (quad 0 0 0 0, 8);
    (quad 169 254 169 254, 32) ]%N.

(** The two forms in which the resolver hands out an IPv4 address. *)
Definition ip4 (a b c d : byte) : Net.IP := [a; b; c; d].
Definition ip4in6 (a b c d : byte) : Net.IP := (Net.v4InV6Prefix ++ [a; b; c; d])%list.

(** fd00:ec2::254, the IPv6 address of the metadata service. *)
Definition metadataV6 : Net.IP :=
  [xfd; x00; x0e; xc2; x00; x00; x00; x00; x00; x00; x00; x00; x00; x00; x02; x54].

(** ** A small world to run the plugin in

    [sampleParse] reads URLs of the form [scheme://host[:port]/path] (and a
    bare [scheme:rest]) the way [url.Parse] does; [sampleLookupIP] is a
    resolver with four names. *)

Module Sample.

Definition sampleParse (rawURL : string) : result Url.URL :=
  match Strings.Split rawURL ":"%char with
  | scheme :: _ :: _ =>
      let rest := Strings.from (String.length scheme + 1) rawURL in
      if Strings.HasPrefix rest "//" then
        match Strings.Split (Strings.from 2 rest) "/"%char with
        | authority :: _ => Ok {| Url.Scheme := scheme; Url.Host := authority |}
        | [] => Ok {| Url.Scheme := scheme; Url.Host := "" |}
        end
      else Ok {| Url.Scheme := scheme; Url.Host := "" |}
  | _ => Ok {| Url.Scheme := ""; Url.Host := "" |}
  end.

Definition sampleLookupIP (host : string) : result (list Net.IP) :=
  if String.eqb host "upload.pypi.org" then Ok [ip4 x97 x65 x00 xdf; ip4 x97 x65 x40 xdf]
  else if String.eqb host "test.pypi.org" then Ok [ip4in6 x97 x65 x80 xdf]
  else if String.eqb host "mixed.example.com" then Ok [ip4 x5d xb8 xd8 x22; ip4 x0a x00 x00 x05]
  else if String.eqb host "metadata.example.com" then Ok [ip4 xa9 xfe xa9 xfe]
  else Err ("lookup " ++ host ++ ": no such host").

Definition world : World :=
  {| url_Parse := sampleParse;
     net_LookupIP := sampleLookupIP;
     os_Getenv := fun _ => EmptyString;
     exec_CombinedOutput := fun _ _ => (EmptyString, None) |}.

(** The SDK's name of the post-publish hook. *)
Definition postPublish : Hook := "post-publish".

(** A plugin with the default executor, and one with a test double that
    fails. *)
Definition plugin : PyPIPlugin := {| cmdExecutor := None |}.

Definition failing : PyPIPlugin :=
  {| cmdExecutor := Some {| Run := fun _ _ => ("HTTPError: 400", Some "exit status 1") |} |}.

Definition config (repository distPath : string) (skip : bool) : Config :=
  {| Username := "u"; Password := "p"; Repository := repository;
     DistPath := distPath; SkipExisting := skip |}.

Definition defaults : Config := config "https://upload.pypi.org/legacy/" "dist/*" false.

End Sample.

(** * Running the embedding on the cases of the repository's tests *)

Module CleanExamples.
Import Filepath.

Example clean_glob : Clean "dist/*" = "dist/*".
Proof. reflexivity. Qed.

Example clean_leading_dotdot : Clean "../../../etc/passwd" = "../../../etc/passwd".
Proof. reflexivity. Qed.

Example clean_middle_dotdot : Clean "dist/../../../etc/passwd" = "../../etc/passwd".
Proof. reflexivity. Qed.

Example clean_slashes : Clean "a//b/./c/" = "a/b/c".
Proof. reflexivity. Qed.

Example clean_backtrack : Clean "abc/def/../ghi" = "abc/ghi".
Proof. reflexivity. Qed.

Example clean_rooted_dotdot : Clean "/../a/b/../c" = "/a/c".
Proof. reflexivity. Qed.

Example clean_to_dot : Clean "a/.." = ".".
Proof. reflexivity. Qed.

Example clean_dotted_name : Clean "/..a" = "/..a".
Proof. reflexivity. Qed.

Example replace_star : Strings.ReplaceAll ".*./x*" "*" "" = "../x".
Proof. reflexivity. Qed.

Example contains_dotdot : Strings.Contains "a/../b" "/.." = true.
Proof. reflexivity. Qed.
End CleanExamples.

Module NetExamples.
Import Net.

Example cidr_10 :
  ParseCIDR "10.0.0.0/8" =
  Some {| IPNet_IP := [x0a; x00; x00; x00]; IPNet_Mask := [xff; x00; x00; x00] |}.
Proof. reflexivity. Qed.

Example cidr_172 :
  ParseCIDR "172.16.0.0/12" =
  Some {| IPNet_IP := [xac; x10; x00; x00]; IPNet_Mask := [xff; xf0; x00; x00] |}.
Proof. reflexivity. Qed.

Example cidr_metadata_v6 :
  ParseCIDR "fd00:ec2::254/128" =
  Some {| IPNet_IP := [xfd; x00; x0e; xc2; x00; x00; x00; x00;
                       x00; x00; x00; x00; x00; x00; x02; x54];
          IPNet_Mask := repeat xff 16 |}.
Proof. reflexivity. Qed.

Example cidr_bad_prefix : ParseCIDR "10.0.0.0/33" = None.
Proof. reflexivity. Qed.

Example cidr_bad_address : ParseCIDR "10.0.0/8" = None.
Proof. reflexivity. Qed.

Example contains_10 :
  match ParseCIDR "10.0.0.0/8" with
  | Some block => Contains block [x0a; x01; x02; x03]
  | None => false
  end = true.
Proof. reflexivity. Qed.

Example loopback_v6 : IsLoopback IPv6loopback = true.
Proof. reflexivity. Qed.
End NetExamples.

Module UrlExamples.
Import Url.

Example hostname_port : Hostname {| Scheme := "http"; Host := "localhost:8080" |} = "localhost".
Proof. reflexivity. Qed.

Example hostname_v6 : Hostname {| Scheme := "http"; Host := "[::1]:9000" |} = "::1".
Proof. reflexivity. Qed.

Example hostname_v6_bare : Hostname {| Scheme := "http"; Host := "[::1]" |} = "::1".
Proof. reflexivity. Qed.

Example hostname_plain : Hostname {| Scheme := "https"; Host := "upload.pypi.org" |} = "upload.pypi.org".
Proof. reflexivity. Qed.
End UrlExamples.

Module RunExamples.
Import Sample.

Example url_default : value (validateRepositoryURL world "https://upload.pypi.org/legacy/") = None.
Proof. vm_compute. reflexivity. Qed.

Example url_localhost : validateRepositoryURL world "http://localhost:8080/simple/" = ([], None).
Proof. vm_compute. reflexivity. Qed.

Example url_http :
  value (validateRepositoryURL world "http://pypi.example.com/")
  = Some "only HTTPS URLs are allowed (got http)".
Proof. vm_compute. reflexivity. Qed.

Example url_file :
  value (validateRepositoryURL world "file:///etc/passwd")
  = Some "only HTTPS URLs are allowed (got file)".
Proof. vm_compute. reflexivity. Qed.

Example url_mixed :
  validateRepositoryURL world "https://mixed.example.com/legacy/"
  = ([LookupIPCall "mixed.example.com"],
     Some "URLs pointing to private networks are not allowed").
Proof. vm_compute. reflexivity. Qed.

Example path_default : validateDistPath "dist/*" = None.
Proof. vm_compute. reflexivity. Qed.

Example path_traversal :
  validateDistPath "dist/../../../etc/passwd"
  = Some "path traversal detected: cannot use '..' to escape working directory".
Proof. vm_compute. reflexivity. Qed.

Example path_absolute : validateDistPath "/etc/passwd" = Some "absolute paths are not allowed".
Proof. vm_compute. reflexivity. Qed.

Example path_injection :
  validateDistPath "dist/*; rm -rf /" = Some "dist path contains invalid characters".
Proof. vm_compute. reflexivity. Qed.

Example private_table :
  map isPrivateIP
      [ ip4 x08 x08 x08 x08; ip4 x01 x01 x01 x01; ip4 x0a x00 x00 x01;
        ip4 xac x10 x00 x01; ip4 xac x1f xff xff; ip4 xc0 xa8 x01 x01;
        ip4 x7f x00 x00 x01; ip4 xa9 xfe x01 x01; ip4 xa9 xfe xa9 xfe;
        Net.IPv6loopback; ip4in6 x08 x08 x08 x08; ip4in6 x0a x00 x00 x01 ]
  = [ false; false; true; true; true; true; true; true; true; true; false; true ].
Proof. vm_compute. reflexivity. Qed.

Example run_failure :
  uploadPackage world failing defaults {| Version := "v1.0.0" |} false
  = ([LookupIPCall "upload.pypi.org";
      RunCall "twine" ["upload"; "--repository-url"; "https://upload.pypi.org/legacy/";
                       "-u"; "u"; "-p"; "p"; "dist/*"]],
     ({| Success := false;
         Message := "";
         Error := "twine upload failed: exit status 1" ++ newline ++ "Output: HTTPError: 400";
         Outputs := ∅ |}, None)).
Proof. vm_compute. reflexivity. Qed.

Example dry_run_version :
  Outputs (fst (value (uploadPackage world plugin defaults {| Version := "v1.2.3" |} true)))
  !! "version" = Some (AString "1.2.3").
Proof. vm_compute. reflexivity. Qed.

Example invalid_path_run :
  uploadPackage world plugin (config "https://upload.pypi.org/legacy/" "../../etc/passwd" false)
                {| Version := "v1.0.0" |} false
  = ([LookupIPCall "upload.pypi.org"],
     ({| Success := false;
         Message := "";
         Error := "configuration validation failed: invalid dist path: " ++
                  "path traversal detected: cannot use '..' to escape working directory";
         Outputs := ∅ |}, None)).
Proof. vm_compute. reflexivity. Qed.

Example skip_existing_run :
  log (uploadPackage world plugin (config "https://test.pypi.org/legacy/" "dist/*" true)
                     {| Version := "v1.0.0" |} false)
  = [LookupIPCall "test.pypi.org";
     RunCall "twine" ["upload"; "--repository-url"; "https://test.pypi.org/legacy/";
                      "-u"; "u"; "-p"; "p"; "--skip-existing"; "dist/*"]].
Proof. vm_compute. reflexivity. Qed.

Example public_v6 :
  option_map isPrivateIP (Net.parseIPv6 "2607:f8b0:4004:800::200e") = Some false.
Proof. vm_compute. reflexivity. Qed.

End RunExamples.

(** * Properties *)

(** ** The log of a computation *)

Lemma log_bind {A B : Type} (m : IO A) (f : A -> IO B) :
  log (bind m f) = (log m ++ log (f (value m)))%list.
Proof. destruct m as [l a]. unfold bind, log, value. simpl. destruct (f a). reflexivity. Qed.

Lemma value_bind {A B : Type} (m : IO A) (f : A -> IO B) :
  value (bind m f) = value (f (value m)).
Proof. destruct m as [l a]. unfold bind, value. simpl. destruct (f a). reflexivity. Qed.

Lemma invokesExecutor_bind {A B : Type} (m : IO A) (f : A -> IO B) :
  invokesExecutor (bind m f) = invokesExecutor m || invokesExecutor (f (value m)).
Proof. unfold invokesExecutor. rewrite log_bind. apply existsb_app. Qed.

(** ** The command builder *)

(** C2: the argument list is [upload --repository-url <endpoint> -u
    <principal> -p <secret> <path>], with [--skip-existing] put immediately
    before the path when, and only when, the skip flag is set. *)
Theorem buildTwineArgs_shape (cfg : Config) :
  buildTwineArgs cfg =
  (["upload"; "--repository-url"; Repository cfg; "-u"; Username cfg;
    "-p"; Password cfg]
   ++ (if SkipExisting cfg then ["--skip-existing"] else [])
   ++ [DistPath cfg])%list.
Proof.
  unfold buildTwineArgs. destruct (SkipExisting cfg); reflexivity.
Qed.

(** ** Hooks that are not handled *)

(** C10: for a hook other than the post-publish hook, whatever the
    configuration and the dry-run flag, [Execute] answers success with the
    message [Hook <hook> not handled] and no Go-level error, and its log is
    empty: no resolution (so no URL validation) and no subprocess. *)
Theorem Execute_unhandled_hook (w : World) (HookPostPublish : Hook)
        (p : PyPIPlugin) (req : ExecuteRequest) :
  ReqHook req <> HookPostPublish ->
  Execute w HookPostPublish p req =
  ([], ({| Success := true;
           Message := "Hook " ++ ReqHook req ++ " not handled";
           Error := "";
           Outputs := ∅ |}, None)).
Proof.
  intros Hne. unfold Execute.
  destruct (String.eqb_spec (ReqHook req) HookPostPublish) as [Heq | _].
  - contradiction.
  - reflexivity.
Qed.

Lemma Execute_unhandled_hook_witness :
  Execute Sample.world Sample.postPublish Sample.plugin
          {| ReqHook := "pre-init";
             ReqConfig := <["username" := AString "testuser"]>
                          (<["password" := AString "testpass"]> ∅);
             ReqContext := {| Version := "" |};
             ReqDryRun := true |}
  = ([], ({| Success := true;
             Message := "Hook pre-init not handled";
             Error := "";
             Outputs := ∅ |}, None)).
Proof.
  apply (Execute_unhandled_hook Sample.world Sample.postPublish Sample.plugin).
  simpl. discriminate.
Defined.

(** ** The validation gate of the orchestrator *)

Lemma validateRepositoryURL_no_run (w : World) (rawURL : string) :
  invokesExecutor (validateRepositoryURL w rawURL) = false.
Proof.
  unfold validateRepositoryURL.
  repeat match goal with
         | |- context [if ?b then _ else _] => destruct b
         | |- context [match ?r with Ok _ => _ | Err _ => _ end] => destruct r
         end; try reflexivity.
  rewrite invokesExecutor_bind. unfold LookupIP, value. simpl.
  destruct (net_LookupIP w _) as [ips | e]; [destruct (anyPrivate ips) |];
    reflexivity.
Qed.

Lemma validateConfig_no_run (w : World) (cfg : Config) :
  invokesExecutor (validateConfig w cfg) = false.
Proof.
  unfold validateConfig. rewrite invokesExecutor_bind, validateRepositoryURL_no_run.
  simpl.
  repeat match goal with
         | |- context [if ?b then _ else _] => destruct b
         | |- context [match ?r with Some _ => _ | None => _ end] => destruct r
         end; reflexivity.
Qed.

(** What [validateConfig] answers, by the first check that fails. *)
Lemma validateConfig_value (w : World) (cfg : Config) :
  value (validateConfig w cfg) =
  match value (validateRepositoryURL w (Repository cfg)) with
  | Some err => Some ("invalid repository URL: " ++ err)
  | None =>
      match validateDistPath (DistPath cfg) with
      | Some err => Some ("invalid dist path: " ++ err)
      | None =>
          if String.eqb (Username cfg) "" then Some "username is required"
          else if String.eqb (Password cfg) "" then Some "password is required"
          else None
      end
  end.
Proof.
  unfold validateConfig. rewrite value_bind.
  destruct (value (validateRepositoryURL w (Repository cfg))); [reflexivity |].
  destruct (validateDistPath (DistPath cfg)); [reflexivity |].
  destruct (String.eqb (Username cfg) ""); [reflexivity |].
  destruct (String.eqb (Password cfg) ""); reflexivity.
Qed.

(** C1: when the configuration is invalid (no user name, no password, a
    repository URL the URL validator rejects or a dist path the path validator
    rejects), then for either value of the dry-run flag [uploadPackage]
    returns a response with [Success = false] whose error is
    [configuration validation failed: ] followed by the message of the
    violation, returns no Go-level error, and runs no subprocess. *)
Theorem uploadPackage_invalid_config (w : World) (p : PyPIPlugin) (cfg : Config)
        (releaseCtx : ReleaseContext) (dryRun : bool) :
  Username cfg = "" \/ Password cfg = "" \/
  value (validateRepositoryURL w (Repository cfg)) <> None \/
  validateDistPath (DistPath cfg) <> None ->
  exists msg : error,
    value (validateConfig w cfg) = Some msg /\
    ((exists e, value (validateRepositoryURL w (Repository cfg)) = Some e /\
                msg = "invalid repository URL: " ++ e) \/
     (exists e, validateDistPath (DistPath cfg) = Some e /\
                msg = "invalid dist path: " ++ e) \/
     msg = "username is required" \/ msg = "password is required") /\
    value (uploadPackage w p cfg releaseCtx dryRun) =
      ({| Success := false;
          Message := "";
          Error := "configuration validation failed: " ++ msg;
          Outputs := ∅ |}, None) /\
    invokesExecutor (uploadPackage w p cfg releaseCtx dryRun) = false.
Proof.
  intros Hbad.
  assert (Hmsg : exists msg, value (validateConfig w cfg) = Some msg /\
    ((exists e, value (validateRepositoryURL w (Repository cfg)) = Some e /\
                msg = "invalid repository URL: " ++ e) \/
     (exists e, validateDistPath (DistPath cfg) = Some e /\
                msg = "invalid dist path: " ++ e) \/
     msg = "username is required" \/ msg = "password is required")).
  { rewrite validateConfig_value.
    destruct (value (validateRepositoryURL w (Repository cfg))) as [e1 |] eqn:Hurl.
    { eexists; split; [reflexivity |]. left. eauto. }
    destruct (validateDistPath (DistPath cfg)) as [e2 |] eqn:Hpath.
    { eexists; split; [reflexivity |]. right; left. eauto. }
    destruct (String.eqb_spec (Username cfg) "") as [Hu | Hu].
    { eexists; split; [reflexivity |]. auto. }
    destruct (String.eqb_spec (Password cfg) "") as [Hp | Hp].
    { eexists; split; [reflexivity |]. auto. }
    destruct Hbad as [H | [H | [H | H]]]; congruence. }
  destruct Hmsg as (msg & Hval & Hform).
  exists msg. split; [exact Hval |]. split; [exact Hform |].
  unfold uploadPackage. rewrite value_bind, invokesExecutor_bind, Hval.
  rewrite validateConfig_no_run. split; reflexivity.
Qed.

Lemma uploadPackage_invalid_config_witness :
  validateDistPath "../../etc/passwd" <> None /\
  exists msg : error,
    value (validateConfig Sample.world (Sample.config "https://upload.pypi.org/legacy/" "../../etc/passwd" false)) = Some msg /\
    value (uploadPackage Sample.world Sample.plugin
                         (Sample.config "https://upload.pypi.org/legacy/" "../../etc/passwd" false)
                         {| Version := "v1.0.0" |} false) =
      ({| Success := false;
          Message := "";
          Error := "configuration validation failed: " ++ msg;
          Outputs := ∅ |}, None) /\
    invokesExecutor (uploadPackage Sample.world Sample.plugin
                         (Sample.config "https://upload.pypi.org/legacy/" "../../etc/passwd" false)
                         {| Version := "v1.0.0" |} false) = false.
Proof.
  split; [vm_compute; discriminate |].
  destruct (uploadPackage_invalid_config Sample.world Sample.plugin
              (Sample.config "https://upload.pypi.org/legacy/" "../../etc/passwd" false)
              {| Version := "v1.0.0" |} false) as (msg & H1 & _ & H2 & H3).
  - right; right; right. vm_compute. discriminate.
  - exists msg. auto.
Defined.

(** ** The dry run *)

Lemma TrimPrefix_v (s : string) : Strings.TrimPrefix (String "v"%char s) "v" = s.
Proof.
  assert (H : forall t : string, String.substring 0 (String.length t) t = t).
  { induction t as [| d t IH]; [reflexivity | simpl; rewrite IH; reflexivity]. }
  unfold Strings.TrimPrefix, Strings.HasPrefix. simpl.
  destruct s as [| c s']; [reflexivity |].
  simpl. f_equal. apply H.
Qed.

(** C3, as the code has it: for a configuration that passes validation, a dry
    run returns [Success = true] with the message [Would upload package to
    <endpoint>] (which contains [Would], with a capital), outputs that carry
    the endpoint, the path pattern, the skip flag and the version without its
    leading [v], no Go-level error, and runs no subprocess. *)
Theorem uploadPackage_dry_run (w : World) (p : PyPIPlugin) (cfg : Config)
        (releaseCtx : ReleaseContext) :
  value (validateConfig w cfg) = None ->
  let r := uploadPackage w p cfg releaseCtx true in
  let resp := fst (value r) in
  snd (value r) = None /\
  Success resp = true /\
  Message resp = "Would upload package to " ++ Repository cfg /\
  Strings.Contains (Message resp) "Would" = true /\
  Error resp = "" /\
  Outputs resp !! "repository" = Some (AString (Repository cfg)) /\
  Outputs resp !! "dist_path" = Some (AString (DistPath cfg)) /\
  Outputs resp !! "skip_existing" = Some (ABool (SkipExisting cfg)) /\
  Outputs resp !! "version" = Some (AString (Strings.TrimPrefix (Version releaseCtx) "v")) /\
  (forall s, Version releaseCtx = String "v"%char s ->
             Outputs resp !! "version" = Some (AString s)) /\
  invokesExecutor r = false.
Proof.
  intros Hok r resp.
  assert (Hr : value r =
    ({| Success := true;
        Message := "Would upload package to " ++ Repository cfg;
        Error := "";
        Outputs :=
          <["repository" := AString (Repository cfg)]>
          (<["dist_path" := AString (DistPath cfg)]>
          (<["skip_existing" := ABool (SkipExisting cfg)]>
          (<["version" := AString (Strings.TrimPrefix (Version releaseCtx) "v")]> ∅)))
     |}, None)).
  { unfold r, uploadPackage. rewrite value_bind, Hok. reflexivity. }
  assert (Hlog : invokesExecutor r = false).
  { unfold r, uploadPackage. rewrite invokesExecutor_bind, Hok, validateConfig_no_run.
    reflexivity. }
  unfold resp. rewrite Hr. simpl.
  repeat split; try reflexivity; try exact Hlog.
  intros s Hs. rewrite Hs, TrimPrefix_v. reflexivity.
Qed.

Lemma uploadPackage_dry_run_witness :
  value (validateConfig Sample.world Sample.defaults) = None /\
  Outputs (fst (value (uploadPackage Sample.world Sample.plugin Sample.defaults
                                     {| Version := "v1.2.3" |} true)))
    !! "version" = Some (AString "1.2.3") /\
  invokesExecutor (uploadPackage Sample.world Sample.plugin Sample.defaults
                                 {| Version := "v1.2.3" |} true) = false.
Proof.
  assert (Hok : value (validateConfig Sample.world Sample.defaults) = None)
    by (vm_compute; reflexivity).
  split; [exact Hok |].
  pose proof (uploadPackage_dry_run Sample.world Sample.plugin Sample.defaults
                {| Version := "v1.2.3" |} Hok) as H.
  cbv zeta in H. destruct H as (_ & _ & _ & _ & _ & _ & _ & _ & _ & Hv & Hlog).
  split; [apply Hv; reflexivity | exact Hlog].
Defined.

(** C3 as stated fails on the letter case: with the default endpoint the
    configuration passes validation and the dry-run message is [Would upload
    package to https://upload.pypi.org/legacy/], in which the lower-case
    [would] does not occur. *)
Lemma uploadPackage_dry_run_not_lowercase :
  value (validateConfig Sample.world Sample.defaults) = None /\
  Message (fst (value (uploadPackage Sample.world Sample.plugin Sample.defaults
                                     {| Version := "v1.2.3" |} true)))
  = "Would upload package to https://upload.pypi.org/legacy/" /\
  Strings.Contains
    (Message (fst (value (uploadPackage Sample.world Sample.plugin Sample.defaults
                                        {| Version := "v1.2.3" |} true))))
    "would" = false.
Proof. vm_compute. repeat split; reflexivity. Qed.

(** ** The URL validator *)

Lemma localhostName_false (host : string) :
  host <> "localhost" -> host <> "127.0.0.1" -> host <> "::1" ->
  localhostName host = false.
Proof.
  intros H1 H2 H3. unfold localhostName.
  apply String.eqb_neq in H1, H2, H3. rewrite H1, H2, H3. reflexivity.
Qed.

Lemma localhostName_true (host : string) :
  host = "localhost" \/ host = "127.0.0.1" \/ host = "::1" ->
  localhostName host = true.
Proof. intros [-> | [-> | ->]]; reflexivity. Qed.

(** The validator once the URL is known to be non-empty and to parse. *)
Lemma validateRepositoryURL_parsed (w : World) (rawURL : string) (u : Url.URL) :
  rawURL <> "" ->
  url_Parse w rawURL = Ok u ->
  validateRepositoryURL w rawURL =
  if negb (String.eqb (Url.Scheme u) "https") && negb (localhostName (Url.Hostname u))
  then ret (Some ("only HTTPS URLs are allowed (got " ++ Url.Scheme u ++ ")"))
  else if negb (String.eqb (Url.Scheme u) "http") &&
          negb (String.eqb (Url.Scheme u) "https")
  then ret (Some ("only HTTP(S) URLs are allowed (got " ++ Url.Scheme u ++ ")"))
  else if localhostName (Url.Hostname u) then ret None
  else r <- LookupIP w (Url.Hostname u) ;;
       match r with
       | Err err => ret (Some ("failed to resolve hostname: " ++ err))
       | Ok ips =>
           if anyPrivate ips
           then ret (Some "URLs pointing to private networks are not allowed")
           else ret None
       end.
Proof.
  intros Hne Hparse. unfold validateRepositoryURL.
  apply String.eqb_neq in Hne. rewrite Hne, Hparse. reflexivity.
Qed.

(** C4: a URL whose parsed scheme is [http] and whose host name is none of
    [localhost], [127.0.0.1], [::1] is rejected with the violation [only
    HTTPS URLs are allowed]; a URL whose parsed scheme is neither [http] nor
    [https] is rejected whatever its host, the local names included.
    Neither case resolves the host name.  (The empty string, which the
    validator rejects before it parses anything, is set apart in the first
    part: [url.Parse] gives it no scheme.) *)
Theorem validateRepositoryURL_scheme (w : World) (rawURL : string) (u : Url.URL) :
  url_Parse w rawURL = Ok u ->
  (rawURL <> "" ->
   Url.Scheme u = "http" ->
   Url.Hostname u <> "localhost" ->
   Url.Hostname u <> "127.0.0.1" ->
   Url.Hostname u <> "::1" ->
   validateRepositoryURL w rawURL = ([], Some "only HTTPS URLs are allowed (got http)"))
  /\
  (Url.Scheme u <> "http" ->
   Url.Scheme u <> "https" ->
   exists msg : error, validateRepositoryURL w rawURL = ([], Some msg)).
Proof.
  intros Hparse. split.
  - intros Hne Hs H1 H2 H3.
    rewrite (validateRepositoryURL_parsed w rawURL u Hne Hparse).
    rewrite Hs, (localhostName_false _ H1 H2 H3). reflexivity.
  - intros Hhttp Hhttps.
    destruct (String.eqb_spec rawURL "") as [He | Hne].
    + subst rawURL. eexists. reflexivity.
    + rewrite (validateRepositoryURL_parsed w rawURL u Hne Hparse).
      apply String.eqb_neq in Hhttp, Hhttps. rewrite Hhttp, Hhttps. simpl.
      destruct (localhostName (Url.Hostname u)); eexists; reflexivity.
Qed.

Lemma validateRepositoryURL_scheme_witness :
  validateRepositoryURL Sample.world "http://pypi.example.com:8080/simple/"
  = ([], Some "only HTTPS URLs are allowed (got http)")
  /\ exists msg : error,
       validateRepositoryURL Sample.world "ftp://localhost/" = ([], Some msg).
Proof.
  split.
  - apply (proj1 (validateRepositoryURL_scheme Sample.world
                    "http://pypi.example.com:8080/simple/"
                    {| Url.Scheme := "http"; Url.Host := "pypi.example.com:8080" |}
                    eq_refl)); vm_compute; discriminate || reflexivity.
  - apply (proj2 (validateRepositoryURL_scheme Sample.world "ftp://localhost/"
                    {| Url.Scheme := "ftp"; Url.Host := "localhost" |}
                    eq_refl)); vm_compute; discriminate.
Defined.

(** C5: a URL with scheme [http] or [https] whose host name is exactly
    [localhost], [127.0.0.1] or [::1], with any port and path, is accepted
    at once: the resolver is not called, and so the answer is the same under
    every resolver. *)
Theorem validateRepositoryURL_localhost (w : World)
        (lookup : string -> result (list Net.IP)) (rawURL : string) (u : Url.URL) :
  rawURL <> "" ->
  url_Parse w rawURL = Ok u ->
  Url.Scheme u = "http" \/ Url.Scheme u = "https" ->
  Url.Hostname u = "localhost" \/ Url.Hostname u = "127.0.0.1" \/ Url.Hostname u = "::1" ->
  validateRepositoryURL (withResolver w lookup) rawURL = ([], None).
Proof.
  intros Hne Hparse Hs Hh.
  rewrite (validateRepositoryURL_parsed (withResolver w lookup) rawURL u Hne Hparse).
  rewrite (localhostName_true _ Hh).
  destruct Hs as [-> | ->]; reflexivity.
Qed.

Lemma validateRepositoryURL_localhost_witness :
  validateRepositoryURL
    (withResolver Sample.world (fun _ => Ok [ip4 x0a x00 x00 x01]))
    "http://[::1]:9000/simple/" = ([], None).
Proof.
  apply (validateRepositoryURL_localhost Sample.world _ "http://[::1]:9000/simple/"
           {| Url.Scheme := "http"; Url.Host := "[::1]:9000" |}).
  - discriminate.
  - reflexivity.
  - left; reflexivity.
  - right; right; reflexivity.
Defined.

Lemma anyPrivate_existsb (ips : list Net.IP) : anyPrivate ips = existsb isPrivateIP ips.
Proof.
  induction ips as [| ip rest IH]; [reflexivity |].
  simpl. rewrite IH. destruct (isPrivateIP ip); reflexivity.
Qed.

(** C7: for an [https] URL whose host name is not one of the local names, the
    resolver is asked for the addresses of the host.  If one of them is
    classified as disallowed, the URL is rejected, whatever the others are;
    if the resolution fails, the URL is rejected too. *)
Theorem validateRepositoryURL_resolution (w : World) (rawURL : string) (u : Url.URL) :
  rawURL <> "" ->
  url_Parse w rawURL = Ok u ->
  Url.Scheme u = "https" ->
  Url.Hostname u <> "localhost" ->
  Url.Hostname u <> "127.0.0.1" ->
  Url.Hostname u <> "::1" ->
  (forall ips ip,
      net_LookupIP w (Url.Hostname u) = Ok ips ->
      In ip ips -> isPrivateIP ip = true ->
      validateRepositoryURL w rawURL =
      ([LookupIPCall (Url.Hostname u)],
       Some "URLs pointing to private networks are not allowed"))
  /\
  (forall err,
      net_LookupIP w (Url.Hostname u) = Err err ->
      validateRepositoryURL w rawURL =
      ([LookupIPCall (Url.Hostname u)], Some ("failed to resolve hostname: " ++ err))).
Proof.
  intros Hne Hparse Hs H1 H2 H3.
  rewrite (validateRepositoryURL_parsed w rawURL u Hne Hparse).
  rewrite Hs, (localhostName_false _ H1 H2 H3). simpl.
  unfold bind, LookupIP. split.
  - intros ips ip Hlookup Hin Hpriv. rewrite Hlookup.
    assert (Hany : anyPrivate ips = true).
    { rewrite anyPrivate_existsb. apply existsb_exists. exists ip. auto. }
    rewrite Hany. reflexivity.
  - intros err Hlookup. rewrite Hlookup. reflexivity.
Qed.

Lemma validateRepositoryURL_resolution_witness :
  validateRepositoryURL Sample.world "https://mixed.example.com/legacy/"
  = ([LookupIPCall "mixed.example.com"],
     Some "URLs pointing to private networks are not allowed")
  /\
  validateRepositoryURL Sample.world "https://unknown.example.com/legacy/"
  = ([LookupIPCall "unknown.example.com"],
     Some "failed to resolve hostname: lookup unknown.example.com: no such host").
Proof.
  split.
  - assert (H := validateRepositoryURL_resolution Sample.world
                   "https://mixed.example.com/legacy/"
                   {| Url.Scheme := "https"; Url.Host := "mixed.example.com" |}).
    apply (proj1 (H ltac:(discriminate) eq_refl eq_refl ltac:(vm_compute; discriminate)
                    ltac:(vm_compute; discriminate) ltac:(vm_compute; discriminate))
                 [ip4 x5d xb8 xd8 x22; ip4 x0a x00 x00 x05] (ip4 x0a x00 x00 x05)).
    + reflexivity.
    + right; left; reflexivity.
    + vm_compute; reflexivity.
  - assert (H := validateRepositoryURL_resolution Sample.world
                   "https://unknown.example.com/legacy/"
                   {| Url.Scheme := "https"; Url.Host := "unknown.example.com" |}).
    apply (proj2 (H ltac:(discriminate) eq_refl eq_refl ltac:(vm_compute; discriminate)
                    ltac:(vm_compute; discriminate) ltac:(vm_compute; discriminate))).
    reflexivity.
Defined.

(** ** The path validator *)

(** The traversal test of [validateDistPath], on the cleaned path without its
    [*] characters. *)
Lemma validateDistPath_checked (path : string) :
  path <> "" ->
  (String.length path <= 256)%nat ->
  distPathPattern_MatchString path = true ->
  validateDistPath path =
  if detectsTraversal path
  then Some "path traversal detected: cannot use '..' to escape working directory"
  else if Filepath.IsAbs path then Some "absolute paths are not allowed"
  else None.
Proof.
  intros Hne Hlen Hchars. unfold validateDistPath.
  apply String.eqb_neq in Hne. apply Nat.ltb_ge in Hlen.
  rewrite Hne, Hlen, Hchars. reflexivity.
Qed.

Lemma validateDistPath_early (path : string) :
  path = "" \/ (256 < String.length path)%nat \/ distPathPattern_MatchString path = false ->
  validateDistPath path = Some "dist path cannot be empty" \/
  validateDistPath path = Some "dist path too long (max 256 characters)" \/
  validateDistPath path = Some "dist path contains invalid characters".
Proof.
  intros H. unfold validateDistPath.
  destruct (String.eqb_spec path "") as [He | Hne]; [auto |].
  destruct (256 <? String.length path)%nat eqn:Hlen; [auto |].
  destruct (distPathPattern_MatchString path); [| auto].
  apply Nat.ltb_ge in Hlen.
  destruct H as [H | [H | H]]; [contradiction | lia | discriminate].
Qed.

Lemma validateDistPath_cases (path : string) :
  (path <> "" /\ (String.length path <= 256)%nat /\
   distPathPattern_MatchString path = true) \/
  (path = "" \/ (256 < String.length path)%nat \/
   distPathPattern_MatchString path = false).
Proof.
  destruct (String.eqb_spec path ""); [auto |].
  destruct (Nat.le_gt_cases (String.length path) 256); [| auto].
  destruct (distPathPattern_MatchString path); auto.
Qed.

(** C8, as the code has it: a path whose cleaned form, with every [*]
    removed, starts with [..] or contains a separator followed by [..] is
    always rejected; the violation is [path traversal] when the path passes
    the three checks that come first (it is not empty, not longer than 256
    bytes and made of allowed characters only), [*] characters in the raw
    string or not. *)
Theorem validateDistPath_traversal (path : string) :
  Strings.HasPrefix (Strings.ReplaceAll (Filepath.Clean path) "*" "") ".." = true \/
  Strings.Contains (Strings.ReplaceAll (Filepath.Clean path) "*" "") "/.." = true ->
  validateDistPath path <> None /\
  (path <> "" ->
   (String.length path <= 256)%nat ->
   distPathPattern_MatchString path = true ->
   validateDistPath path =
   Some "path traversal detected: cannot use '..' to escape working directory").
Proof.
  intros Htrav.
  assert (Hdet : detectsTraversal path = true).
  { unfold detectsTraversal. apply orb_true_iff. exact Htrav. }
  split.
  - destruct (validateDistPath_cases path) as [(Hne & Hlen & Hchars) | Hearly].
    + rewrite (validateDistPath_checked path Hne Hlen Hchars), Hdet. discriminate.
    + destruct (validateDistPath_early path Hearly) as [H | [H | H]];
        rewrite H; discriminate.
  - intros Hne Hlen Hchars.
    rewrite (validateDistPath_checked path Hne Hlen Hchars), Hdet. reflexivity.
Qed.

Lemma validateDistPath_traversal_witness :
  validateDistPath "build/*/../../../*.whl" =
  Some "path traversal detected: cannot use '..' to escape working directory".
Proof.
  apply (proj2 (validateDistPath_traversal "build/*/../../../*.whl"
                  ltac:(left; vm_compute; reflexivity))).
  - discriminate.
  - vm_compute. lia.
  - vm_compute. reflexivity.
Defined.

(** C8 as stated fails: the cleaned form of [../a b] starts with [..], but
    the path holds a space, and the check of the characters, which comes
    first, gives the violation. *)
Lemma validateDistPath_traversal_not_first :
  Strings.HasPrefix (Strings.ReplaceAll (Filepath.Clean "../a b") "*" "") ".." = true /\
  validateDistPath "../a b" = Some "dist path contains invalid characters" /\
  validateDistPath "../a b" <>
  Some "path traversal detected: cannot use '..' to escape working directory".
Proof.
  split; [vm_compute; reflexivity |].
  split; [vm_compute; reflexivity | vm_compute; discriminate].
Qed.

Lemma IsAbs_nonempty (path : string) : Filepath.IsAbs path = true -> path <> "".
Proof. intros H ->. discriminate. Qed.

(** C9, as the code has it: an absolute path is always rejected, with the
    violation of the first check that fails: [too long] when the path is
    longer than 256 bytes; otherwise [invalid characters] when it holds a
    byte that is not allowed; otherwise [path traversal] when the traversal
    test fires on it; and [absolute paths] when it passes these three checks
    (an absolute path is never empty, so the first check of all cannot
    fail). *)
Theorem validateDistPath_absolute (path : string) :
  Filepath.IsAbs path = true ->
  validateDistPath path <> None /\
  ((String.length path <= 256)%nat ->
   distPathPattern_MatchString path = true ->
   detectsTraversal path = false ->
   validateDistPath path = Some "absolute paths are not allowed") /\
  ((256 < String.length path)%nat ->
   validateDistPath path = Some "dist path too long (max 256 characters)") /\
  ((String.length path <= 256)%nat ->
   distPathPattern_MatchString path = false ->
   validateDistPath path = Some "dist path contains invalid characters") /\
  ((String.length path <= 256)%nat ->
   distPathPattern_MatchString path = true ->
   detectsTraversal path = true ->
   validateDistPath path =
   Some "path traversal detected: cannot use '..' to escape working directory").
Proof.
  intros Habs. pose proof (IsAbs_nonempty path Habs) as Hne.
  assert (Hempty : String.eqb path "" = false) by (apply String.eqb_neq; exact Hne).
  split; [| split; [| split; [| split]]].
  - destruct (validateDistPath_cases path) as [(_ & Hlen & Hchars) | Hearly].
    + rewrite (validateDistPath_checked path Hne Hlen Hchars), Habs.
      destruct (detectsTraversal path); discriminate.
    + destruct (validateDistPath_early path Hearly) as [H | [H | H]];
        rewrite H; discriminate.
  - intros Hlen Hchars Hdet.
    rewrite (validateDistPath_checked path Hne Hlen Hchars), Hdet, Habs. reflexivity.
  - intros Hlong. unfold validateDistPath. rewrite Hempty.
    apply Nat.ltb_lt in Hlong. rewrite Hlong. reflexivity.
  - intros Hlen Hchars. unfold validateDistPath. rewrite Hempty.
    apply Nat.ltb_ge in Hlen. rewrite Hlen, Hchars. reflexivity.
  - intros Hlen Hchars Hdet.
    rewrite (validateDistPath_checked path Hne Hlen Hchars), Hdet. reflexivity.
Qed.

Lemma validateDistPath_absolute_witness :
  validateDistPath "/etc/passwd" = Some "absolute paths are not allowed" /\
  validateDistPath (String "/"%char (string_of_list_ascii (repeat "a"%char 256))) =
    Some "dist path too long (max 256 characters)" /\
  validateDistPath "/etc/pass wd" = Some "dist path contains invalid characters" /\
  validateDistPath "/..cache/x" =
    Some "path traversal detected: cannot use '..' to escape working directory".
Proof.
  split; [| split; [| split]].
  - apply (proj1 (proj2 (validateDistPath_absolute "/etc/passwd" eq_refl))).
    + vm_compute. lia.
    + vm_compute. reflexivity.
    + vm_compute. reflexivity.
  - apply (proj1 (proj2 (proj2 (validateDistPath_absolute
             (String "/"%char (string_of_list_ascii (repeat "a"%char 256))) eq_refl)))).
    vm_compute. lia.
  - apply (proj1 (proj2 (proj2 (proj2 (validateDistPath_absolute "/etc/pass wd" eq_refl))))).
    + vm_compute. lia.
    + vm_compute. reflexivity.
  - apply (proj2 (proj2 (proj2 (proj2 (validateDistPath_absolute "/..cache/x" eq_refl))))).
    + vm_compute. lia.
    + vm_compute. reflexivity.
    + vm_compute. reflexivity.
Defined.

(** C9 as stated fails: the absolute path [/etc/pass wd] is rejected for its
    characters and the absolute path [/..cache/x] by the traversal test,
    both of which come before the test for absolute paths. *)
Lemma validateDistPath_absolute_not_independent :
  Filepath.IsAbs "/etc/pass wd" = true /\
  validateDistPath "/etc/pass wd" = Some "dist path contains invalid characters" /\
  Filepath.IsAbs "/..cache/x" = true /\
  validateDistPath "/..cache/x" =
  Some "path traversal detected: cannot use '..' to escape working directory".
Proof. vm_compute. repeat split; reflexivity. Qed.

(** ** The IP classifier *)

Lemma To4_four (a b c d : byte) : Net.To4 [a; b; c; d] = Some [a; b; c; d].
Proof. reflexivity. Qed.

Lemma To4_ip4in6 (a b c d : byte) : Net.To4 (ip4in6 a b c d) = Some [a; b; c; d].
Proof. reflexivity. Qed.

(** The classifier sees an IPv4 address in 16-byte form as the address. *)
Lemma inRanges_ip4in6 (ranges : list string) (a b c d : byte) :
  inRanges ranges (ip4in6 a b c d) = inRanges ranges (ip4 a b c d).
Proof.
  induction ranges as [| cidr rest IH]; [reflexivity |].
  simpl. rewrite IH. destruct (Net.ParseCIDR cidr) as [block |]; [| reflexivity].
  unfold Net.Contains. rewrite To4_ip4in6. unfold ip4. rewrite To4_four. reflexivity.
Qed.

Lemma isPrivateIP_ip4in6 (a b c d : byte) :
  isPrivateIP (ip4in6 a b c d) = isPrivateIP (ip4 a b c d).
Proof.
  unfold isPrivateIP. rewrite inRanges_ip4in6.
  unfold Net.IsLoopback, Net.IsLinkLocalUnicast, Net.IsLinkLocalMulticast, Net.IsPrivate.
  rewrite To4_ip4in6. unfold ip4. rewrite To4_four. reflexivity.
Qed.

(** A range of the table that contains the address settles the answer. *)
Lemma inRanges_In (ranges : list string) (cidr : string) (block : Net.IPNet) (ip : Net.IP) :
  In cidr ranges ->
  Net.ParseCIDR cidr = Some block ->
  Net.Contains block ip = true ->
  inRanges ranges ip = true.
Proof.
  intros Hin Hparse Hcont. induction ranges as [| c rest IH]; [contradiction |].
  simpl. destruct Hin as [-> | Hin].
  - rewrite Hparse, Hcont. reflexivity.
  - destruct (Net.ParseCIDR c) as [blk |]; [| auto].
    destruct (Net.Contains blk ip); auto.
Qed.

Lemma isPrivateIP_range (cidr : string) (block : Net.IPNet) (ip : Net.IP) :
  In cidr (privateRanges ++ cloudMetadata)%list ->
  Net.ParseCIDR cidr = Some block ->
  Net.Contains block ip = true ->
  isPrivateIP ip = true.
Proof.
  intros Hin Hparse Hcont. unfold isPrivateIP.
  rewrite (inRanges_In _ cidr block ip Hin Hparse Hcont). reflexivity.
Qed.

(** [Contains] for an IPv4 network and a 4-byte address, byte by byte. *)
Lemma Contains_four (n0 n1 n2 n3 m0 m1 m2 m3 a b c d : byte) :
  Net.Contains {| Net.IPNet_IP := [n0; n1; n2; n3]; Net.IPNet_Mask := [m0; m1; m2; m3] |}
               [a; b; c; d] =
  (Net.band n0 m0 =? Net.band a m0)%N && (Net.band n1 m1 =? Net.band b m1)%N &&
  (Net.band n2 m2 =? Net.band c m2)%N && (Net.band n3 m3 =? Net.band d m3)%N.
Proof.
  unfold Net.Contains, Net.networkNumberAndMask. simpl.
  destruct (Net.band n0 m0 =? Net.band a m0)%N; [| reflexivity].
  destruct (Net.band n1 m1 =? Net.band b m1)%N; [| reflexivity].
  destruct (Net.band n2 m2 =? Net.band c m2)%N; [| reflexivity].
  destruct (Net.band n3 m3 =? Net.band d m3)%N; reflexivity.
Qed.

Lemma band_zero_mask (x y : byte) : (Net.band x x00 =? Net.band y x00)%N = true.
Proof.
  unfold Net.band. change (Byte.to_N x00) with 0%N.
  rewrite !N.land_0_r. reflexivity.
Qed.

Lemma band_full_mask (x y : byte) :
  Byte.to_N y = Byte.to_N x -> (Net.band x xff =? Net.band y xff)%N = true.
Proof. intros H. unfold Net.band. rewrite H. apply N.eqb_refl. Qed.

(** The second byte of 172.16.0.0/12: the numbers from 16 to 31. *)
Lemma band_f0 (y : byte) :
  (Byte.to_N y / 16 = 1)%N -> (Net.band x10 xf0 =? Net.band y xf0)%N = true.
Proof. destruct y; vm_compute; intros H; solve [reflexivity | discriminate H]. Qed.

Lemma to_N_lt (x : byte) : (Byte.to_N x < 256)%N.
Proof. pose proof (Byte.to_N_bounded x). lia. Qed.

Section Quads.
Local Open Scope N_scope.

Variables a b c d : N.
Hypothesis Hb : b < 256.
Hypothesis Hc : c < 256.
Hypothesis Hd : d < 256.

Lemma shiftr_quad_24 : N.shiftr (quad a b c d) 24 = a.
Proof.
  rewrite N.shiftr_div_pow2. unfold quad.
  change (2 ^ 24) with 16777216. change (2 ^ 16) with 65536. change (2 ^ 8) with 256.
  symmetry. apply (N.div_unique _ _ _ (b * 65536 + c * 256 + d)); lia.
Qed.

Lemma shiftr_quad_16 : N.shiftr (quad a b c d) 16 = a * 256 + b.
Proof.
  rewrite N.shiftr_div_pow2. unfold quad.
  change (2 ^ 24) with 16777216. change (2 ^ 16) with 65536. change (2 ^ 8) with 256.
  symmetry. apply (N.div_unique _ _ _ (c * 256 + d)); lia.
Qed.

Lemma shiftr_quad_20 : N.shiftr (quad a b c d) 20 = a * 16 + b / 16.
Proof.
  rewrite N.shiftr_div_pow2. unfold quad.
  change (2 ^ 24) with 16777216. change (2 ^ 16) with 65536. change (2 ^ 8) with 256.
  change (2 ^ 20) with 1048576.
  symmetry. apply (N.div_unique _ _ _ (b mod 16 * 65536 + c * 256 + d)).
  - assert (b mod 16 < 16) by (apply N.mod_lt; discriminate). lia.
  - assert (E : b = 16 * (b / 16) + b mod 16) by (apply N.div_mod; discriminate).
    rewrite E at 1. lia.
Qed.

Lemma quad_prefix_8 (n : N) : N.shiftr (quad a b c d) 24 = n -> a = n.
Proof. rewrite shiftr_quad_24. auto. Qed.

Lemma quad_prefix_16 (n m : N) :
  m < 256 -> N.shiftr (quad a b c d) 16 = n * 256 + m -> a = n /\ b = m.
Proof. rewrite shiftr_quad_16. lia. Qed.

Lemma quad_prefix_12 (n : N) :
  N.shiftr (quad a b c d) 20 = n * 16 + 1 -> a = n /\ b / 16 = 1.
Proof.
  rewrite shiftr_quad_20.
  assert (b / 16 < 16) by (apply N.Div0.div_lt_upper_bound; lia).
  remember (b / 16) as k. lia.
Qed.

End Quads.

(** An address of a block given by its first byte. *)
Lemma Contains_prefix_8 (cidr : string) (n a b c d : byte) :
  In cidr (privateRanges ++ cloudMetadata)%list ->
  Net.ParseCIDR cidr =
    Some {| Net.IPNet_IP := [n; x00; x00; x00]; Net.IPNet_Mask := [xff; x00; x00; x00] |} ->
  Byte.to_N a = Byte.to_N n ->
  isPrivateIP (ip4 a b c d) = true.
Proof.
  intros Hin Hparse Ha. apply (isPrivateIP_range cidr _ _ Hin Hparse).
  unfold ip4. rewrite Contains_four, (band_full_mask _ _ Ha), !band_zero_mask.
  reflexivity.
Qed.

(** An address of a block given by its first two bytes. *)
Lemma Contains_prefix_16 (cidr : string) (n m a b c d : byte) :
  In cidr (privateRanges ++ cloudMetadata)%list ->
  Net.ParseCIDR cidr =
    Some {| Net.IPNet_IP := [n; m; x00; x00]; Net.IPNet_Mask := [xff; xff; x00; x00] |} ->
  Byte.to_N a = Byte.to_N n ->
  Byte.to_N b = Byte.to_N m ->
  isPrivateIP (ip4 a b c d) = true.
Proof.
  intros Hin Hparse Ha Hb. apply (isPrivateIP_range cidr _ _ Hin Hparse).
  unfold ip4.
  rewrite Contains_four, (band_full_mask _ _ Ha), (band_full_mask _ _ Hb), !band_zero_mask.
  reflexivity.
Qed.

Ltac in_table := simpl; repeat (try (left; reflexivity); right).

(** Every address of one of the IPv4 blocks is classified as disallowed. *)
Lemma isPrivateIP_blocks (a b c d : byte) (base len : N) :
  In (base, len) disallowedBlocks4 ->
  inBlock4 base len (number4 a b c d) ->
  isPrivateIP (ip4 a b c d) = true.
Proof.
  intros Hin Hblk. unfold inBlock4, number4 in Hblk.
  pose proof (to_N_lt b) as Hb. pose proof (to_N_lt c) as Hc. pose proof (to_N_lt d) as Hd.
  simpl in Hin.
  destruct Hin as [H | [H | [H | [H | [H | [H | [H | []]]]]]]];
    injection H as <- <-.
  - (* 10.0.0.0/8 *)
    apply (quad_prefix_8 _ _ _ _ Hb Hc Hd) in Hblk.
    apply (Contains_prefix_8 "10.0.0.0/8" x0a); [in_table | reflexivity | exact Hblk].
  - (* 172.16.0.0/12 *)
    apply (quad_prefix_12 _ _ _ _ Hb Hc Hd 172) in Hblk. destruct Hblk as [Ha Hb2].
    apply (isPrivateIP_range "172.16.0.0/12"
             {| Net.IPNet_IP := [xac; x10; x00; x00];
                Net.IPNet_Mask := [xff; xf0; x00; x00] |});
      [in_table | reflexivity |].
    unfold ip4.
    rewrite Contains_four, (band_full_mask xac a Ha), (band_f0 b Hb2), !band_zero_mask.
    reflexivity.
  - (* 192.168.0.0/16 *)
    apply (quad_prefix_16 _ _ _ _ Hb Hc Hd 192 168) in Hblk; [| reflexivity].
    destruct Hblk as [Ha Hb2].
    apply (Contains_prefix_16 "192.168.0.0/16" xc0 xa8);
      [in_table | reflexivity | exact Ha | exact Hb2].
  - (* 127.0.0.0/8 *)
    apply (quad_prefix_8 _ _ _ _ Hb Hc Hd) in Hblk.
    apply (Contains_prefix_8 "127.0.0.0/8" x7f); [in_table | reflexivity | exact Hblk].
  - (* 169.254.0.0/16 *)
    apply (quad_prefix_16 _ _ _ _ Hb Hc Hd 169 254) in Hblk; [| reflexivity].
    destruct Hblk as [Ha Hb2].
    apply (Contains_prefix_16 "169.254.0.0/16" xa9 xfe);
      [in_table | reflexivity | exact Ha | exact Hb2].
  - (* 0.0.0.0/8 *)
    apply (quad_prefix_8 _ _ _ _ Hb Hc Hd) in Hblk.
    apply (Contains_prefix_8 "0.0.0.0/8" x00); [in_table | reflexivity | exact Hblk].
  - (* 169.254.169.254/32, which lies in 169.254.0.0/16 *)
    change (32 - 32)%N with 0%N in Hblk. rewrite !N.shiftr_0_r in Hblk.
    assert (H16 : N.shiftr (quad (Byte.to_N a) (Byte.to_N b) (Byte.to_N c) (Byte.to_N d)) 16
                  = (169 * 256 + 254)%N) by (rewrite Hblk; reflexivity).
    apply (quad_prefix_16 _ _ _ _ Hb Hc Hd 169 254) in H16; [| reflexivity].
    destruct H16 as [Ha Hb2].
    apply (Contains_prefix_16 "169.254.0.0/16" xa9 xfe);
      [in_table | reflexivity | exact Ha | exact Hb2].
Qed.

(** C6: [isPrivateIP], a function of the bytes of the address alone, is true
    of every address of 10.0.0.0/8, 172.16.0.0/12, 192.168.0.0/16,
    127.0.0.0/8, 169.254.0.0/16 and 0.0.0.0/8 and of 169.254.169.254, in the
    4-byte and in the 16-byte form of the address; of the IPv6 metadata
    address fd00:ec2::254 and of the IPv6 loopback ::1; and of every address
    that is loopback, link-local unicast, link-local multicast or private by
    the predicates of the [net] package. *)
Theorem isPrivateIP_disallowed :
  (forall (a b c d : byte) (base len : N),
      In (base, len) disallowedBlocks4 ->
      inBlock4 base len (number4 a b c d) ->
      isPrivateIP (ip4 a b c d) = true /\ isPrivateIP (ip4in6 a b c d) = true)
  /\ isPrivateIP metadataV6 = true
  /\ isPrivateIP Net.IPv6loopback = true
  /\ (forall ip : Net.IP,
         Net.IsLoopback ip = true \/ Net.IsLinkLocalUnicast ip = true \/
         Net.IsLinkLocalMulticast ip = true \/ Net.IsPrivate ip = true ->
         isPrivateIP ip = true).
Proof.
  split; [| split; [| split]].
  - intros a b c d base len Hin Hblk.
    rewrite isPrivateIP_ip4in6.
    pose proof (isPrivateIP_blocks a b c d base len Hin Hblk). auto.
  - vm_compute. reflexivity.
  - vm_compute. reflexivity.
  - intros ip H. unfold isPrivateIP.
    destruct (inRanges _ ip); [reflexivity |].
    destruct H as [-> | [H | [H | H]]]; [reflexivity | | |];
      rewrite H, ?orb_true_r; reflexivity.
Qed.

Lemma isPrivateIP_disallowed_witness :
  isPrivateIP (ip4 xac x1f xff xff) = true /\
  isPrivateIP (ip4in6 xa9 xfe xa9 xfe) = true /\
  isPrivateIP [xfe; x80; x00; x00; x00; x00; x00; x00;
               x00; x00; x00; x00; x00; x00; x00; x01] = true.
Proof.
  destruct isPrivateIP_disallowed as (Hblocks & _ & _ & Hgeneric).
  split; [| split].
  - apply (Hblocks xac x1f xff xff (quad 172 16 0 0) 12%N).
    + right; left; reflexivity.
    + vm_compute. reflexivity.
  - apply (Hblocks xa9 xfe xa9 xfe (quad 169 254 169 254) 32%N).
    + in_table.
    + vm_compute. reflexivity.
  - apply Hgeneric. right; left. vm_compute. reflexivity.
Defined.

(** * Further properties of the plugin *)

(** ** The configuration resolver *)

Lemma assertString_nonEmpty (v : option any) :
  (let (s, ok) := assertString v in ok && negb (String.eqb s "")) =
  match nonEmptyString v with Some _ => true | None => false end.
Proof.
  destruct v as [[s | b | n] |]; simpl; try reflexivity.
  destruct (String.eqb s ""); reflexivity.
Qed.

(** A field of [parseConfig] that falls back on [other]. *)
Lemma parse_field (v : option any) (other : string) :
  (let (s, ok) := assertString v in
   if ok && negb (String.eqb s "") then s else other) =
  match nonEmptyString v with Some s => s | None => other end.
Proof.
  destruct v as [[s | b | n] |]; simpl; try reflexivity.
  destruct (String.eqb s ""); reflexivity.
Qed.

Lemma getenv_fallback (v : string) :
  (if negb (String.eqb v "") then v else EmptyString) = v.
Proof. destruct (String.eqb_spec v ""); simpl; congruence. Qed.

Lemma nonEmptyString_Some (v : option any) (s : string) :
  nonEmptyString v = Some s <-> v = Some (AString s) /\ s <> "".
Proof.
  destruct v as [[t | b | n] |]; simpl; try (split; [discriminate | intros [H _]; discriminate]).
  destruct (String.eqb_spec t "") as [-> | Hne]; split.
  - discriminate.
  - intros [H Hs]. injection H as <-. contradiction.
  - intros H. injection H as <-. auto.
  - intros [H _]. injection H as <-. reflexivity.
Qed.

(** X1: a credential is the value of the configuration when that is a
    non-empty string, whatever the environment holds; in every other case
    (no entry, an entry of another type, the empty string) it is the value of
    the environment variable, which is empty when the variable is not set. *)
Theorem parseConfig_credentials (w : World) (raw : gmap string any) :
  (forall v, raw !! "username" = Some (AString v) -> v <> "" ->
             Username (parseConfig w raw) = v) /\
  (nonEmptyString (raw !! "username") = None ->
   Username (parseConfig w raw) = os_Getenv w "PYPI_USERNAME") /\
  (forall v, raw !! "password" = Some (AString v) -> v <> "" ->
             Password (parseConfig w raw) = v) /\
  (nonEmptyString (raw !! "password") = None ->
   Password (parseConfig w raw) = os_Getenv w "PYPI_PASSWORD").
Proof.
  unfold parseConfig. simpl. rewrite !getenv_fallback, !parse_field.
  repeat split.
  - intros v Hv Hne.
    rewrite (proj2 (nonEmptyString_Some _ v) (conj Hv Hne)). reflexivity.
  - intros ->. reflexivity.
  - intros v Hv Hne.
    rewrite (proj2 (nonEmptyString_Some _ v) (conj Hv Hne)). reflexivity.
  - intros ->. reflexivity.
Qed.

Lemma parseConfig_credentials_witness :
  Username (parseConfig (withEnv Sample.world (fun _ => "envvalue"))
                        (<["username" := AString "explicit"]> ∅)) = "explicit" /\
  Password (parseConfig (withEnv Sample.world (fun _ => "envvalue"))
                        (<["username" := AString "explicit"]>
                         (<["password" := ABool true]> ∅))) = "envvalue".
Proof.
  split.
  - apply (proj1 (parseConfig_credentials _ _)); [reflexivity | discriminate].
  - apply (proj2 (proj2 (proj2 (parseConfig_credentials
             (withEnv Sample.world (fun _ => "envvalue")) _)))).
    reflexivity.
Defined.

(** X2: the endpoint and the path pattern of a resolved configuration are
    never empty: each is the configured value when that is a non-empty string
    and the built-in default otherwise, and neither reads the environment. *)
Theorem parseConfig_defaults (w : World) (raw : gmap string any) :
  Repository (parseConfig w raw) <> "" /\
  DistPath (parseConfig w raw) <> "" /\
  Repository (parseConfig w raw) =
    match nonEmptyString (raw !! "repository") with
    | Some v => v
    | None => "https://upload.pypi.org/legacy/"
    end /\
  DistPath (parseConfig w raw) =
    match nonEmptyString (raw !! "dist_path") with
    | Some v => v
    | None => "dist/*"
    end.
Proof.
  unfold parseConfig. simpl. rewrite !parse_field.
  repeat split.
  - destruct (nonEmptyString (raw !! "repository")) as [v |] eqn:E; [| discriminate].
    apply nonEmptyString_Some in E. tauto.
  - destruct (nonEmptyString (raw !! "dist_path")) as [v |] eqn:E; [| discriminate].
    apply nonEmptyString_Some in E. tauto.
Qed.

(** X3: the skip flag of a resolved configuration is set exactly when the
    configuration holds the boolean [true] under [skip_existing]; a string or
    a number there leaves it unset. *)
Theorem parseConfig_skip_existing (w : World) (raw : gmap string any) :
  SkipExisting (parseConfig w raw) = true <-> raw !! "skip_existing" = Some (ABool true).
Proof.
  unfold parseConfig. simpl.
  destruct (raw !! "skip_existing") as [[s | b | n] |]; simpl;
    try (split; [discriminate | discriminate]).
  destruct b; split; congruence.
Qed.

Lemma parseConfig_skip_existing_witness :
  SkipExisting (parseConfig Sample.world (<["skip_existing" := ABool true]> ∅)) = true /\
  SkipExisting (parseConfig Sample.world (<["skip_existing" := AString "true"]> ∅)) <> true.
Proof.
  split.
  - apply (proj2 (parseConfig_skip_existing Sample.world _)). reflexivity.
  - intros H. apply (proj1 (parseConfig_skip_existing Sample.world _)) in H.
    discriminate H.
Defined.

(** ** The command builder, once more *)

(** X4: different configurations give different argument lists: the list
    determines the endpoint, the credentials, the path and the skip flag. *)
Theorem buildTwineArgs_injective (cfg1 cfg2 : Config) :
  buildTwineArgs cfg1 = buildTwineArgs cfg2 -> cfg1 = cfg2.
Proof.
  destruct cfg1 as [u1 p1 r1 d1 s1], cfg2 as [u2 p2 r2 d2 s2].
  unfold buildTwineArgs. simpl.
  destruct s1, s2; simpl; intros H; inversion H; reflexivity.
Qed.

Lemma buildTwineArgs_injective_witness :
  Sample.config "https://test.pypi.org/legacy/" "dist/*" true =
  {| Username := "u"; Password := "p"; Repository := "https://test.pypi.org/legacy/";
     DistPath := "dist/*"; SkipExisting := true |}.
Proof. apply buildTwineArgs_injective. reflexivity. Defined.

(** ** The orchestrator, run for real *)

Lemma filter_none {A : Type} (f : A -> bool) (l : list A) :
  existsb f l = false -> List.filter f l = [].
Proof.
  induction l as [| x l IH]; [reflexivity |].
  simpl. destruct (f x); [discriminate | exact IH].
Qed.

Lemma runsOf_app (l1 l2 : list Event) : runsOf (l1 ++ l2) = (runsOf l1 ++ runsOf l2)%list.
Proof. unfold runsOf. induction l1 as [| x l1 IH]; [reflexivity |].
  simpl. destruct (isRunCall x); simpl; rewrite IH; reflexivity.
Qed.

Lemma validateConfig_runs (w : World) (cfg : Config) :
  runsOf (log (validateConfig w cfg)) = [].
Proof. apply filter_none. apply validateConfig_no_run. Qed.

Lemma uploadPackage_afterGate (w : World) (p : PyPIPlugin) (cfg : Config)
      (releaseCtx : ReleaseContext) (dryRun : bool) :
  log (uploadPackage w p cfg releaseCtx dryRun) =
    (log (validateConfig w cfg) ++
     log (afterGate w p cfg releaseCtx dryRun (value (validateConfig w cfg))))%list /\
  value (uploadPackage w p cfg releaseCtx dryRun) =
    value (afterGate w p cfg releaseCtx dryRun (value (validateConfig w cfg))).
Proof.
  unfold uploadPackage. rewrite log_bind, value_bind.
  destruct (value (validateConfig w cfg)) as [err |]; [split; reflexivity |].
  destruct dryRun; [split; reflexivity |].
  unfold bind, runExecutor, afterGate, log, value. simpl.
  destruct (Run (getExecutor w p) "twine" (buildTwineArgs cfg)) as [output [e |]];
    split; reflexivity.
Qed.

Lemma uploadPackage_runsOf (w : World) (p : PyPIPlugin) (cfg : Config)
      (releaseCtx : ReleaseContext) (dryRun : bool) :
  runsOf (log (uploadPackage w p cfg releaseCtx dryRun)) =
  match value (validateConfig w cfg) with
  | None => if dryRun then [] else [RunCall "twine" (buildTwineArgs cfg)]
  | Some _ => []
  end.
Proof.
  destruct (uploadPackage_afterGate w p cfg releaseCtx dryRun) as [Hlog _].
  rewrite Hlog, runsOf_app, validateConfig_runs.
  destruct (value (validateConfig w cfg)) as [err |]; [reflexivity |].
  destruct dryRun; reflexivity.
Qed.

(** X5: whatever the inputs, [uploadPackage] starts at most one subprocess,
    and only after the validation: it runs [twine] once, with the arguments of
    [buildTwineArgs], when the configuration is valid and the run is not a
    dry run, and nothing otherwise.  There is no retry. *)
Theorem uploadPackage_runs (w : World) (p : PyPIPlugin) (cfg : Config)
        (releaseCtx : ReleaseContext) (dryRun : bool) :
  let r := uploadPackage w p cfg releaseCtx dryRun in
  runsOf (log r) =
    match value (validateConfig w cfg) with
    | None => if dryRun then [] else [RunCall "twine" (buildTwineArgs cfg)]
    | Some _ => []
    end /\
  log r = (log (validateConfig w cfg) ++ runsOf (log r))%list.
Proof.
  intros r. unfold r.
  destruct (uploadPackage_afterGate w p cfg releaseCtx dryRun) as [Hlog _].
  rewrite Hlog, runsOf_app, validateConfig_runs.
  destruct (value (validateConfig w cfg)) as [err |]; [split; reflexivity |].
  destruct dryRun; split; reflexivity.
Qed.

(** X6: the result of a real run is read off the executor's answer.  When the
    tool fails, the response has [Success = false] and an error made of
    [twine upload failed: ], the error of the executor and the raw output;
    when it succeeds, [Success = true] and the outputs carry the endpoint,
    the path pattern, the version without its [v] and the raw output (and no
    skip flag). *)
Theorem uploadPackage_real_run (w : World) (p : PyPIPlugin) (cfg : Config)
        (releaseCtx : ReleaseContext) (output : string) (err : option error) :
  value (validateConfig w cfg) = None ->
  Run (getExecutor w p) "twine" (buildTwineArgs cfg) = (output, err) ->
  value (uploadPackage w p cfg releaseCtx false) =
  (match err with
   | Some e =>
       {| Success := false;
          Message := "";
          Error := "twine upload failed: " ++ e ++ newline ++ "Output: " ++ output;
          Outputs := ∅ |}
   | None =>
       {| Success := true;
          Message := "Successfully uploaded package to " ++ Repository cfg;
          Error := "";
          Outputs :=
            <["repository" := AString (Repository cfg)]>
            (<["dist_path" := AString (DistPath cfg)]>
            (<["version" := AString (Strings.TrimPrefix (Version releaseCtx) "v")]>
            (<["output" := AString output]> ∅))) |}
   end, None).
Proof.
  intros Hok Hrun.
  destruct (uploadPackage_afterGate w p cfg releaseCtx false) as [_ Hval].
  rewrite Hval, Hok. unfold afterGate, value. simpl. rewrite Hrun. simpl.
  destruct err; reflexivity.
Qed.

Lemma uploadPackage_real_run_witness :
  value (uploadPackage Sample.world Sample.failing Sample.defaults
                       {| Version := "v1.0.0" |} false) =
  ({| Success := false;
      Message := "";
      Error := "twine upload failed: exit status 1" ++ newline ++ "Output: HTTPError: 400";
      Outputs := ∅ |}, None).
Proof.
  apply (uploadPackage_real_run Sample.world Sample.failing Sample.defaults
           {| Version := "v1.0.0" |} "HTTPError: 400" (Some "exit status 1")).
  - vm_compute. reflexivity.
  - reflexivity.
Defined.

Lemma Execute_cases (w : World) (post : Hook) (p : PyPIPlugin) (req : ExecuteRequest) :
  Execute w post p req =
    uploadPackage w p (parseConfig w (ReqConfig req)) (ReqContext req) (ReqDryRun req) \/
  Execute w post p req =
    ([], ({| Success := true;
             Message := "Hook " ++ ReqHook req ++ " not handled";
             Error := "";
             Outputs := ∅ |}, None)).
Proof. unfold Execute. destruct (String.eqb (ReqHook req) post); auto. Qed.

Lemma afterGate_no_error (w : World) (p : PyPIPlugin) (cfg : Config)
      (releaseCtx : ReleaseContext) (dryRun : bool) (verr : option error) :
  snd (value (afterGate w p cfg releaseCtx dryRun verr)) = None.
Proof. destruct verr; [reflexivity |]. destruct dryRun; reflexivity. Qed.

Lemma Validate_value (w : World) (raw : gmap string any) :
  snd (value (Validate w raw)) = None.
Proof.
  unfold Validate. rewrite value_bind. reflexivity.
Qed.

(** X7: the three entry points never return a Go-level error: every
    failure, of the validation, of the resolver or of the upload tool, comes
    back inside the response. *)
Theorem no_go_error (w : World) (post : Hook) (p : PyPIPlugin) :
  (forall cfg releaseCtx dryRun,
      snd (value (uploadPackage w p cfg releaseCtx dryRun)) = None) /\
  (forall req, snd (value (Execute w post p req)) = None) /\
  (forall raw, snd (value (Validate w raw)) = None).
Proof.
  assert (Hup : forall cfg releaseCtx dryRun,
             snd (value (uploadPackage w p cfg releaseCtx dryRun)) = None).
  { intros cfg releaseCtx dryRun.
    destruct (uploadPackage_afterGate w p cfg releaseCtx dryRun) as [_ Hval].
    rewrite Hval. apply afterGate_no_error. }
  split; [exact Hup |]. split.
  - intros req. destruct (Execute_cases w post p req) as [H | H]; rewrite H.
    + apply Hup.
    + reflexivity.
  - intros raw. apply Validate_value.
Qed.

Lemma Execute_post_publish (w : World) (post : Hook) (p : PyPIPlugin) (req : ExecuteRequest) :
  ReqHook req = post ->
  Execute w post p req =
  uploadPackage w p (parseConfig w (ReqConfig req)) (ReqContext req) (ReqDryRun req).
Proof. intros H. unfold Execute. rewrite H, String.eqb_refl. reflexivity. Qed.

(** X8: [Execute] starts the upload tool only for the post-publish hook, in
    a run that is not a dry run, on a configuration that passes validation,
    and then exactly once; in every other case no subprocess is started. *)
Theorem Execute_runs (w : World) (post : Hook) (p : PyPIPlugin) (req : ExecuteRequest) :
  runsOf (log (Execute w post p req)) =
  if String.eqb (ReqHook req) post && negb (ReqDryRun req) &&
     match value (validateConfig w (parseConfig w (ReqConfig req))) with
     | None => true
     | Some _ => false
     end
  then [RunCall "twine" (buildTwineArgs (parseConfig w (ReqConfig req)))]
  else [].
Proof.
  destruct (String.eqb_spec (ReqHook req) post) as [Hh | Hh].
  - rewrite (Execute_post_publish w post p req Hh).
    rewrite uploadPackage_runsOf.
    destruct (value (validateConfig w (parseConfig w (ReqConfig req))));
      destruct (ReqDryRun req); reflexivity.
  - unfold Execute. apply String.eqb_neq in Hh. rewrite Hh. reflexivity.
Qed.

Lemma afterGate_shape (w : World) (p : PyPIPlugin) (cfg : Config)
      (releaseCtx : ReleaseContext) (dryRun : bool) (verr : option error) :
  let resp := fst (value (afterGate w p cfg releaseCtx dryRun verr)) in
  (Success resp = true /\ Error resp = "" /\ Message resp <> "") \/
  (Success resp = false /\ Error resp <> "" /\ Message resp = "" /\ Outputs resp = ∅).
Proof.
  destruct verr as [err |]; simpl.
  { right. repeat split; discriminate. }
  destruct dryRun; simpl.
  { left. repeat split; discriminate. }
  destruct (snd (Run (getExecutor w p) "twine" (buildTwineArgs cfg))); simpl.
  - right. repeat split; discriminate.
  - left. repeat split; discriminate.
Qed.

(** X9: a response of [Execute] is of one of two kinds.  Either it reports
    success, with a message and no error; or it reports failure, with an
    error, no message and no outputs.  So [Success] holds exactly when the
    error is empty. *)
Theorem Execute_response_shape (w : World) (post : Hook) (p : PyPIPlugin)
        (req : ExecuteRequest) :
  let resp := fst (value (Execute w post p req)) in
  ((Success resp = true /\ Error resp = "" /\ Message resp <> "") \/
   (Success resp = false /\ Error resp <> "" /\ Message resp = "" /\ Outputs resp = ∅)) /\
  (Success resp = true <-> Error resp = "").
Proof.
  intros resp.
  assert (H : (Success resp = true /\ Error resp = "" /\ Message resp <> "") \/
              (Success resp = false /\ Error resp <> "" /\ Message resp = "" /\
               Outputs resp = ∅)).
  { unfold resp. destruct (Execute_cases w post p req) as [E | E]; rewrite E.
    - destruct (uploadPackage_afterGate w p (parseConfig w (ReqConfig req))
                  (ReqContext req) (ReqDryRun req)) as [_ Hval].
      rewrite Hval. apply afterGate_shape.
    - left. simpl. repeat split; discriminate. }
  split; [exact H |].
  destruct H as [(Hs & He & _) | (Hs & He & _)]; rewrite Hs; split; intros H';
    congruence.
Qed.

(** X10: [uploadPackage] reports success exactly when the configuration
    passes validation and either the run is a dry run or the executor
    returns no error. *)
Theorem uploadPackage_success_iff (w : World) (p : PyPIPlugin) (cfg : Config)
        (releaseCtx : ReleaseContext) (dryRun : bool) :
  Success (fst (value (uploadPackage w p cfg releaseCtx dryRun))) = true <->
  value (validateConfig w cfg) = None /\
  (dryRun = true \/ snd (Run (getExecutor w p) "twine" (buildTwineArgs cfg)) = None).
Proof.
  destruct (uploadPackage_afterGate w p cfg releaseCtx dryRun) as [_ Hval].
  rewrite Hval. clear Hval.
  destruct (value (validateConfig w cfg)) as [err |].
  { simpl. split; [discriminate | intros [H _]; discriminate H]. }
  destruct dryRun.
  { simpl. split; auto. }
  unfold afterGate, value. simpl.
  destruct (snd (Run (getExecutor w p) "twine" (buildTwineArgs cfg))); simpl.
  - split; [discriminate | intros [_ [H | H]]; discriminate H].
  - split; auto.
Qed.

Lemma uploadPackage_success_iff_witness :
  Success (fst (value (uploadPackage Sample.world Sample.plugin Sample.defaults
                                     {| Version := "v1.0.0" |} false))) = true.
Proof.
  apply (proj2 (uploadPackage_success_iff Sample.world Sample.plugin Sample.defaults
                  {| Version := "v1.0.0" |} false)).
  split; [vm_compute; reflexivity | right; reflexivity].
Defined.

Ltac insert_keys H :=
  repeat (apply lookup_insert_Some in H as [[<- _] | [_ H]];
          [simpl; tauto |]);
  rewrite lookup_empty in H; discriminate H.

(** X11: the outputs of a response have no other keys than [repository],
    [dist_path], [skip_existing], [version] and [output]; the user name and
    the password are not among them. *)
Theorem uploadPackage_output_keys (w : World) (p : PyPIPlugin) (cfg : Config)
        (releaseCtx : ReleaseContext) (dryRun : bool) (k : string) (v : any) :
  Outputs (fst (value (uploadPackage w p cfg releaseCtx dryRun))) !! k = Some v ->
  In k ["repository"; "dist_path"; "skip_existing"; "version"; "output"].
Proof.
  destruct (uploadPackage_afterGate w p cfg releaseCtx dryRun) as [_ Hval].
  rewrite Hval. clear Hval.
  destruct (value (validateConfig w cfg)) as [err |].
  { simpl. rewrite lookup_empty. discriminate. }
  destruct dryRun.
  { simpl. intros H. insert_keys H. }
  unfold afterGate, value. simpl.
  destruct (snd (Run (getExecutor w p) "twine" (buildTwineArgs cfg))); simpl.
  - rewrite lookup_empty. discriminate.
  - intros H. insert_keys H.
Qed.

Lemma uploadPackage_output_keys_witness :
  In "version" ["repository"; "dist_path"; "skip_existing"; "version"; "output"].
Proof.
  apply (uploadPackage_output_keys Sample.world Sample.plugin Sample.defaults
           {| Version := "v1.2.3" |} true "version" (AString "1.2.3")).
  vm_compute. reflexivity.
Defined.

(** X12: with an injected executor the plugin starts no process of its own:
    the whole outcome, log and response, is the same whatever the real
    executor would do. *)
Theorem uploadPackage_injected_executor (w : World)
        (run : string -> list string -> string * option error)
        (p : PyPIPlugin) (e : CommandExecutor) (cfg : Config)
        (releaseCtx : ReleaseContext) (dryRun : bool) :
  cmdExecutor p = Some e ->
  uploadPackage (withProcesses w run) p cfg releaseCtx dryRun =
  uploadPackage w p cfg releaseCtx dryRun.
Proof.
  intros He. unfold uploadPackage, getExecutor. rewrite He. reflexivity.
Qed.

Lemma uploadPackage_injected_executor_witness :
  uploadPackage (withProcesses Sample.world (fun _ _ => ("uploaded", None)))
                Sample.failing Sample.defaults {| Version := "v1.0.0" |} false =
  uploadPackage Sample.world Sample.failing Sample.defaults {| Version := "v1.0.0" |} false.
Proof.
  apply (uploadPackage_injected_executor Sample.world _ Sample.failing
           {| Run := fun _ _ => ("HTTPError: 400", Some "exit status 1") |}).
  reflexivity.
Defined.

(** ** The URL validator, in full *)

Lemma anyPrivate_false (ips : list Net.IP) :
  anyPrivate ips = false <-> forall ip, In ip ips -> isPrivateIP ip = false.
Proof.
  rewrite anyPrivate_existsb. split.
  - intros H ip Hin. destruct (isPrivateIP ip) eqn:E; [| reflexivity].
    assert (existsb isPrivateIP ips = true) by (apply existsb_exists; eauto).
    congruence.
  - intros H. destruct (existsb isPrivateIP ips) eqn:E; [| reflexivity].
    apply existsb_exists in E. destruct E as (ip & Hin & Hp).
    rewrite (H ip Hin) in Hp. discriminate.
Qed.

(** X13: the URLs the validator accepts.  A URL is accepted exactly when it
    is not empty, it parses, and either its host name is one of the three
    local names and its scheme is [http] or [https], or its scheme is
    [https], the resolver answers, and none of the addresses it gives is
    classified as disallowed (an empty answer of the resolver included). *)
Theorem validateRepositoryURL_accepts (w : World) (rawURL : string) :
  value (validateRepositoryURL w rawURL) = None <->
  rawURL <> "" /\
  exists u, url_Parse w rawURL = Ok u /\
    ((localhostName (Url.Hostname u) = true /\
      (Url.Scheme u = "http" \/ Url.Scheme u = "https")) \/
     (localhostName (Url.Hostname u) = false /\
      Url.Scheme u = "https" /\
      exists ips, net_LookupIP w (Url.Hostname u) = Ok ips /\
                  forall ip, In ip ips -> isPrivateIP ip = false)).
Proof.
  destruct (String.eqb_spec rawURL "") as [-> | Hne].
  { split; [discriminate | intros [H _]; congruence]. }
  destruct (url_Parse w rawURL) as [u | e] eqn:Hparse.
  2:{ unfold validateRepositoryURL. apply String.eqb_neq in Hne.
      rewrite Hne, Hparse. simpl.
      split; [discriminate | intros (_ & u & Hu & _); discriminate]. }
  rewrite (validateRepositoryURL_parsed w rawURL u Hne Hparse).
  destruct (String.eqb_spec (Url.Scheme u) "https") as [Hs | Hs];
    destruct (localhostName (Url.Hostname u)) eqn:Hl; simpl.
  - (* https, local *)
    rewrite Hs. simpl. split; [| reflexivity].
    intros _. split; [exact Hne |]. exists u. split; [reflexivity |]. left. auto.
  - (* https, to be resolved *)
    rewrite Hs. simpl. unfold bind, LookupIP, value. simpl.
    destruct (net_LookupIP w (Url.Hostname u)) as [ips | e] eqn:Hlook; simpl.
    + destruct (anyPrivate ips) eqn:Hany; simpl.
      * split; [discriminate |].
        intros (_ & u' & Hu' & [[Hl' _] | (_ & _ & ips' & Hips & Hall)]).
        -- injection Hu' as <-. congruence.
        -- injection Hu' as <-. rewrite Hlook in Hips. injection Hips as <-.
           apply anyPrivate_false in Hall. congruence.
      * split; [| reflexivity].
        intros _. split; [exact Hne |]. exists u. split; [reflexivity |]. right.
        repeat split; auto. exists ips. split; [first [reflexivity | exact Hlook] |].
        apply anyPrivate_false. exact Hany.
    + split; [discriminate |].
      intros (_ & u' & Hu' & [[Hl' _] | (_ & _ & ips' & Hips & _)]).
      * injection Hu' as <-. congruence.
      * injection Hu' as <-. rewrite Hlook in Hips. discriminate.
  - (* another scheme, local *)
    destruct (String.eqb_spec (Url.Scheme u) "http") as [Hh | Hh]; simpl.
    + split; [| reflexivity].
      intros _. split; [exact Hne |]. exists u. split; [reflexivity |]. left. auto.
    + split; [discriminate |].
      intros (_ & u' & Hu' & [[_ [Hs' | Hs']] | (Hl' & _)]);
        injection Hu' as <-; congruence.
  - (* another scheme, not local *)
    split; [discriminate |].
    intros (_ & u' & Hu' & [[Hl' _] | (_ & Hs' & _)]);
      injection Hu' as <-; congruence.
Qed.

Lemma validateRepositoryURL_accepts_witness :
  value (validateRepositoryURL Sample.world "https://upload.pypi.org/legacy/") = None.
Proof.
  apply (proj2 (validateRepositoryURL_accepts Sample.world "https://upload.pypi.org/legacy/")).
  split; [discriminate |].
  exists {| Url.Scheme := "https"; Url.Host := "upload.pypi.org" |}.
  split; [reflexivity |]. right.
  split; [reflexivity |]. split; [reflexivity |].
  exists [ip4 x97 x65 x00 xdf; ip4 x97 x65 x40 xdf]. split; [reflexivity |].
  intros ip [<- | [<- | []]]; vm_compute; reflexivity.
Defined.

(** X14: the validator asks the resolver at most once, for the host name of
    the parsed URL, and only when the URL is not empty, its scheme is
    [https] and its host name is not one of the local names: a URL that is
    rejected for its scheme, or that does not parse, causes no lookup. *)
Theorem validateRepositoryURL_lookups (w : World) (rawURL : string) :
  log (validateRepositoryURL w rawURL) =
  match url_Parse w rawURL with
  | Ok u =>
      if negb (String.eqb rawURL "") && String.eqb (Url.Scheme u) "https" &&
         negb (localhostName (Url.Hostname u))
      then [LookupIPCall (Url.Hostname u)]
      else []
  | Err _ => []
  end.
Proof.
  destruct (String.eqb_spec rawURL "") as [-> | Hne].
  { simpl. destruct (url_Parse w ""); reflexivity. }
  destruct (url_Parse w rawURL) as [u | e] eqn:Hparse.
  2:{ unfold validateRepositoryURL. apply String.eqb_neq in Hne.
      rewrite Hne, Hparse. reflexivity. }
  rewrite (validateRepositoryURL_parsed w rawURL u Hne Hparse).
  destruct (String.eqb_spec (Url.Scheme u) "https") as [Hs | Hs];
    destruct (localhostName (Url.Hostname u)) eqn:Hl; simpl.
  - rewrite Hs. reflexivity.
  - rewrite Hs. simpl. unfold bind, LookupIP, log. simpl.
    destruct (net_LookupIP w (Url.Hostname u)) as [ips | e]; simpl;
      [destruct (anyPrivate ips) |]; reflexivity.
  - destruct (String.eqb (Url.Scheme u) "http"); reflexivity.
  - reflexivity.
Qed.

(** X15: the empty URL is rejected before anything is parsed, and a URL the
    parser refuses is rejected with the parser's error after [invalid URL: ];
    neither asks the resolver. *)
Theorem validateRepositoryURL_unparsed (w : World) (rawURL : string) (e : error) :
  validateRepositoryURL w "" = ([], Some "repository URL cannot be empty") /\
  (rawURL <> "" -> url_Parse w rawURL = Err e ->
   validateRepositoryURL w rawURL = ([], Some ("invalid URL: " ++ e))).
Proof.
  split; [reflexivity |].
  intros Hne Hparse. unfold validateRepositoryURL.
  apply String.eqb_neq in Hne. rewrite Hne, Hparse. reflexivity.
Qed.

Lemma validateRepositoryURL_unparsed_witness :
  validateRepositoryURL
    {| url_Parse := fun _ => Err "parse: invalid control character in URL";
       net_LookupIP := Sample.sampleLookupIP;
       os_Getenv := fun _ => EmptyString;
       exec_CombinedOutput := fun _ _ => (EmptyString, None) |}
    "https://pypi.example.com/"
  = ([], Some "invalid URL: parse: invalid control character in URL").
Proof.
  apply (proj2 (validateRepositoryURL_unparsed _ "https://pypi.example.com/" _)).
  - discriminate.
  - reflexivity.
Defined.

(** ** The path validator, in full *)

Lemma allBytes_forall (f : ascii -> bool) (s : string) :
  Url.allBytes f s = true <-> forall c, In c (bytesOf s) -> f c = true.
Proof.
  induction s as [| a s IH]; simpl.
  - split; [intros _ c [] | reflexivity].
  - rewrite andb_true_iff, IH. split.
    + intros [Ha Hs] c [<- | Hc]; auto.
    + intros H. split; [apply H; auto | intros c Hc; apply H; auto].
Qed.

Lemma shellMeta_not_allowed (c : ascii) : In c shellMeta -> distPathByte c = false.
Proof.
  unfold shellMeta. simpl.
  intros H. repeat (destruct H as [<- | H]; [reflexivity |]). contradiction.
Qed.

(** X16: a path that holds, at any position, a byte outside the allowed set
    (letters, digits and [. _ / * -]), and so any path with a shell
    metacharacter or a blank in it, is rejected with [invalid characters],
    provided it is not longer than 256 bytes. *)
Theorem validateDistPath_invalid_character (path : string) (c : ascii) :
  In c (bytesOf path) ->
  distPathByte c = false \/ In c shellMeta ->
  (String.length path <= 256)%nat ->
  validateDistPath path = Some "dist path contains invalid characters".
Proof.
  intros Hin Hbad Hlen.
  assert (Hc : distPathByte c = false).
  { destruct Hbad as [H | H]; [exact H | apply shellMeta_not_allowed; exact H]. }
  assert (Hall : Url.allBytes distPathByte path = false).
  { destruct (Url.allBytes distPathByte path) eqn:E; [| reflexivity].
    rewrite allBytes_forall in E. rewrite (E c Hin) in Hc. discriminate. }
  unfold validateDistPath.
  destruct (String.eqb_spec path "") as [-> | _]; [destruct Hin |].
  apply Nat.ltb_ge in Hlen. rewrite Hlen.
  unfold distPathPattern_MatchString. rewrite Hall, andb_false_r. reflexivity.
Qed.

Lemma validateDistPath_invalid_character_witness :
  validateDistPath "dist/*; rm -rf /" = Some "dist path contains invalid characters".
Proof.
  apply (validateDistPath_invalid_character "dist/*; rm -rf /" ";"%char).
  - simpl. tauto.
  - right. simpl. tauto.
  - vm_compute. lia.
Defined.

Lemma prefix_empty (s : string) : String.prefix "" s = true.
Proof. destruct s; reflexivity. Qed.

Lemma prefix_String (a b : ascii) (s1 s2 : string) :
  String.prefix (String a s1) (String b s2) =
  if ascii_dec a b then String.prefix s1 s2 else false.
Proof. reflexivity. Qed.

(** Removing the [*]s, byte by byte. *)
Lemma strip_cons (c : ascii) (rest : string) :
  Strings.ReplaceAll (String c rest) "*" "" =
  if Ascii.eqb c "*"%char then Strings.ReplaceAll rest "*" ""
  else String c (Strings.ReplaceAll rest "*" "").
Proof.
  unfold Strings.ReplaceAll.
  change (Strings.replace_from (String c rest) "*" "" 0)
    with (if String.prefix "*" (String c rest)
          then "" ++ Strings.replace_from rest "*" "" 0
          else String c (Strings.replace_from rest "*" "" 0)).
  rewrite prefix_String, prefix_empty.
  destruct (ascii_dec "*"%char c) as [<- | Hne].
  - reflexivity.
  - assert (E : Ascii.eqb c "*"%char = false).
    { apply Ascii.eqb_neq. congruence. }
    rewrite E. reflexivity.
Qed.

Lemma prefix_dotdot_inv (s : string) :
  String.prefix ".." s = true -> exists t, s = String "."%char (String "."%char t).
Proof.
  destruct s as [| a [| b t]]; try (intros H; discriminate H).
  - rewrite prefix_String. destruct (ascii_dec "."%char a); intros H; discriminate H.
  - rewrite !prefix_String.
    destruct (ascii_dec "."%char a) as [<- |]; [| intros H; discriminate H].
    destruct (ascii_dec "."%char b) as [<- |]; [| intros H; discriminate H].
    intros _. exists t. reflexivity.
Qed.

Lemma strip_prefix_dotdot (s : string) :
  String.prefix ".." s = true ->
  String.prefix ".." (Strings.ReplaceAll s "*" "") = true.
Proof.
  intros H. destruct (prefix_dotdot_inv s H) as [t ->].
  rewrite !strip_cons.
  change (Ascii.eqb "." "*") with false. cbv iota.
  rewrite !prefix_String.
  destruct (ascii_dec "."%char "."%char); [apply prefix_empty | contradiction].
Qed.

Lemma Contains_cons (c : ascii) (s sub : string) :
  Strings.Contains s sub = true -> Strings.Contains (String c s) sub = true.
Proof.
  intros H.
  change (Strings.Contains (String c s) sub)
    with (String.prefix sub (String c s) || Strings.Contains s sub).
  rewrite H. apply orb_true_r.
Qed.

Lemma Contains_prefix (s sub : string) :
  String.prefix sub s = true -> Strings.Contains s sub = true.
Proof.
  intros H. destruct s as [| c s].
  - change (Strings.Contains "" sub) with (String.prefix sub "" || false).
    rewrite H. reflexivity.
  - change (Strings.Contains (String c s) sub)
      with (String.prefix sub (String c s) || Strings.Contains s sub).
    rewrite H. reflexivity.
Qed.

Lemma prefix_slash_dotdot_inv (s : string) :
  String.prefix "/.." s = true ->
  exists t, s = String "/"%char (String "."%char (String "."%char t)).
Proof.
  destruct s as [| a s]; [intros H; discriminate H |].
  rewrite prefix_String.
  destruct (ascii_dec "/"%char a) as [<- |]; [| intros H; discriminate H].
  intros H. destruct (prefix_dotdot_inv s H) as [t ->]. exists t. reflexivity.
Qed.

Lemma strip_contains (s : string) :
  Strings.Contains s "/.." = true ->
  Strings.Contains (Strings.ReplaceAll s "*" "") "/.." = true.
Proof.
  induction s as [| c s IH]; [discriminate |].
  intros H. change (Strings.Contains (String c s) "/..")
    with (String.prefix "/.." (String c s) || Strings.Contains s "/..") in H.
  apply orb_true_iff in H. destruct H as [H | H].
  - destruct (prefix_slash_dotdot_inv _ H) as [t E]. rewrite E.
    rewrite !strip_cons.
    change (Ascii.eqb "." "*") with false. change (Ascii.eqb "/" "*") with false.
    cbv iota. apply Contains_prefix. rewrite !prefix_String.
    destruct (ascii_dec "/"%char "/"%char); [| contradiction].
    destruct (ascii_dec "."%char "."%char); [apply prefix_empty | contradiction].
  - rewrite strip_cons. destruct (Ascii.eqb c "*"%char); [auto |].
    apply Contains_cons. auto.
Qed.

Lemma Split_nonempty (s : string) (sep : ascii) : Strings.Split s sep <> [].
Proof.
  destruct s as [| c s]; simpl; [discriminate |].
  destruct (Ascii.eqb c sep); [discriminate |].
  destruct (Strings.Split s sep); discriminate.
Qed.

Lemma prefix_cons (c : ascii) (x s : string) :
  String.prefix (String c x) (String c s) = String.prefix x s.
Proof. rewrite prefix_String. destruct (ascii_dec c c); [reflexivity | contradiction]. Qed.

(** The first element of a path is a prefix of the path. *)
Lemma Split_head (s : string) (sep : ascii) (x : string) (xs : list string) :
  Strings.Split s sep = x :: xs -> String.prefix x s = true.
Proof.
  revert x xs. induction s as [| c s IH]; intros x xs H; simpl in H.
  - injection H as <- <-. reflexivity.
  - destruct (Ascii.eqb c sep).
    + injection H as <- _. reflexivity.
    + destruct (Strings.Split s sep) as [| y ys] eqn:E.
      * injection H as <- _. rewrite prefix_cons. apply prefix_empty.
      * injection H as <- _. rewrite prefix_cons. apply (IH y ys). reflexivity.
Qed.

(** A [..] element after the first one follows a separator. *)
Lemma Split_tail (s : string) (x : string) (xs : list string) :
  Strings.Split s "/"%char = x :: xs -> In ".." xs -> Strings.Contains s "/.." = true.
Proof.
  revert x xs. induction s as [| c s IH]; intros x xs.
  - simpl. intros H. injection H as _ <-. intros [].
  - change (Strings.Split (String c s) "/"%char)
      with (if Ascii.eqb c "/"%char then EmptyString :: Strings.Split s "/"%char
            else match Strings.Split s "/"%char with
                 | [] => [String c EmptyString]
                 | y :: ys => String c y :: ys
                 end).
    destruct (Ascii.eqb_spec c "/"%char) as [-> | Hc].
    + intros H. injection H as _ <-. intros Hin.
      destruct (Strings.Split s "/"%char) as [| y ys] eqn:E; [destruct Hin |].
      destruct Hin as [-> | Hin].
      * apply Contains_prefix. rewrite prefix_cons.
        apply (Split_head s "/"%char ".." ys E).
      * apply Contains_cons. apply (IH y ys); [reflexivity | exact Hin].
    + destruct (Strings.Split s "/"%char) as [| y ys] eqn:E.
      * intros H. injection H as _ <-. intros [].
      * intros H. injection H as _ <-. intros Hin.
        apply Contains_cons. apply (IH y ys); [reflexivity | exact Hin].
Qed.

Lemma dotdot_element (s : string) :
  In ".." (Strings.Split s "/"%char) ->
  String.prefix ".." s = true \/ Strings.Contains s "/.." = true.
Proof.
  destruct (Strings.Split s "/"%char) as [| x xs] eqn:E; [intros [] |].
  intros [-> | Hin].
  - left. apply (Split_head s "/"%char ".." xs E).
  - right. apply (Split_tail s x xs E Hin).
Qed.

(** X17: what an accepted path is like.  It is not empty, at most 256 bytes
    long, made of allowed bytes only, not absolute, and its cleaned form has
    no [..] element: it names nothing above the working directory. *)
Theorem validateDistPath_accepted (path : string) :
  validateDistPath path = None ->
  path <> "" /\
  (String.length path <= 256)%nat /\
  (forall c, In c (bytesOf path) -> distPathByte c = true) /\
  Filepath.IsAbs path = false /\
  ~ In ".." (Strings.Split (Filepath.Clean path) "/"%char).
Proof.
  intros Hok.
  destruct (validateDistPath_cases path) as [(Hne & Hlen & Hchars) | Hearly].
  2:{ destruct (validateDistPath_early path Hearly) as [H | [H | H]];
        rewrite H in Hok; discriminate. }
  rewrite (validateDistPath_checked path Hne Hlen Hchars) in Hok.
  destruct (detectsTraversal path) eqn:Hdet; [discriminate |].
  destruct (Filepath.IsAbs path) eqn:Habs; [discriminate |].
  split; [exact Hne |]. split; [exact Hlen |]. split.
  - apply allBytes_forall. unfold distPathPattern_MatchString in Hchars.
    apply andb_true_iff in Hchars. tauto.
  - split; [reflexivity |].
    intros Hin. apply dotdot_element in Hin.
    unfold detectsTraversal in Hdet. apply orb_false_iff in Hdet.
    destruct Hdet as [Hp Hc]. destruct Hin as [H | H].
    + apply strip_prefix_dotdot in H. unfold Strings.HasPrefix in Hp. congruence.
    + apply strip_contains in H.
      change (String Filepath.Separator EmptyString ++ "..") with "/.." in Hc.
      congruence.
Qed.

Lemma validateDistPath_accepted_witness :
  ~ In ".." (Strings.Split (Filepath.Clean "build/./dist//*.tar.gz") "/"%char).
Proof.
  apply (validateDistPath_accepted "build/./dist//*.tar.gz").
  vm_compute. reflexivity.
Defined.

(** ** The IP classifier, in full *)

Lemma inRanges_cons (cidr : string) (rest : list string) (block : Net.IPNet) (ip : Net.IP) :
  Net.ParseCIDR cidr = Some block ->
  inRanges (cidr :: rest) ip = Net.Contains block ip || inRanges rest ip.
Proof. intros H. simpl. rewrite H. destruct (Net.Contains block ip); reflexivity. Qed.

Lemma band_ff (n x : byte) :
  (Net.band n xff =? Net.band x xff)%N = (Byte.to_N x =? Byte.to_N n)%N.
Proof.
  unfold Net.band. change (Byte.to_N xff) with (N.ones 8).
  rewrite !N.land_ones.
  pose proof (to_N_lt n). pose proof (to_N_lt x).
  change (2 ^ 8)%N with 256%N.
  rewrite !N.mod_small by assumption. apply N.eqb_sym.
Qed.

Lemma band_f0_range (x : byte) :
  (Net.band x10 xf0 =? Net.band x xf0)%N =
  (16 <=? Byte.to_N x)%N && (Byte.to_N x <=? 31)%N.
Proof. destruct x; reflexivity. Qed.

Lemma land_f0_range (x : byte) :
  (N.land (Byte.to_N x) 240 =? 16)%N =
  (16 <=? Byte.to_N x)%N && (Byte.to_N x <=? 31)%N.
Proof. destruct x; reflexivity. Qed.

(** The table of ranges on a 4-byte address, range by range. *)
Lemma inRanges_ip4 (a b c d : byte) :
  inRanges (privateRanges ++ cloudMetadata) (ip4 a b c d) =
  let A := Byte.to_N a in
  let B := Byte.to_N b in
  let C := Byte.to_N c in
  let D := Byte.to_N d in
  ((A =? 10) || ((A =? 172) && ((16 <=? B) && (B <=? 31))) ||
   ((A =? 192) && (B =? 168)) || (A =? 127) || ((A =? 169) && (B =? 254)) ||
   (A =? 0) || ((A =? 169) && (B =? 254) && (C =? 169) && (D =? 254)))%N.
Proof.
  unfold privateRanges, cloudMetadata, ip4. simpl app.
  rewrite (inRanges_cons "10.0.0.0/8" _
             {| Net.IPNet_IP := [x0a; x00; x00; x00];
                Net.IPNet_Mask := [xff; x00; x00; x00] |} _ eq_refl).
  rewrite (inRanges_cons "172.16.0.0/12" _
             {| Net.IPNet_IP := [xac; x10; x00; x00];
                Net.IPNet_Mask := [xff; xf0; x00; x00] |} _ eq_refl).
  rewrite (inRanges_cons "192.168.0.0/16" _
             {| Net.IPNet_IP := [xc0; xa8; x00; x00];
                Net.IPNet_Mask := [xff; xff; x00; x00] |} _ eq_refl).
  rewrite (inRanges_cons "127.0.0.0/8" _
             {| Net.IPNet_IP := [x7f; x00; x00; x00];
                Net.IPNet_Mask := [xff; x00; x00; x00] |} _ eq_refl).
  rewrite (inRanges_cons "169.254.0.0/16" _
             {| Net.IPNet_IP := [xa9; xfe; x00; x00];
                Net.IPNet_Mask := [xff; xff; x00; x00] |} _ eq_refl).
  rewrite (inRanges_cons "0.0.0.0/8" _
             {| Net.IPNet_IP := [x00; x00; x00; x00];
                Net.IPNet_Mask := [xff; x00; x00; x00] |} _ eq_refl).
  rewrite (inRanges_cons "169.254.169.254/32" _
             {| Net.IPNet_IP := [xa9; xfe; xa9; xfe];
                Net.IPNet_Mask := [xff; xff; xff; xff] |} _ eq_refl).
  rewrite (inRanges_cons "fd00:ec2::254/128" _
             {| Net.IPNet_IP := metadataV6; Net.IPNet_Mask := repeat xff 16 |} _ eq_refl).
  change (Net.Contains {| Net.IPNet_IP := metadataV6; Net.IPNet_Mask := repeat xff 16 |}
                       [a; b; c; d]) with false.
  rewrite !Contains_four, !band_ff, band_f0_range, !band_zero_mask.
  change (inRanges [] [a; b; c; d]) with false.
  cbv zeta. change (Byte.to_N x0a) with 10%N. change (Byte.to_N xac) with 172%N.
  change (Byte.to_N xc0) with 192%N. change (Byte.to_N xa8) with 168%N.
  change (Byte.to_N x7f) with 127%N. change (Byte.to_N xa9) with 169%N.
  change (Byte.to_N xfe) with 254%N. change (Byte.to_N x00) with 0%N.
  rewrite !andb_true_r, !orb_false_r, !orb_assoc. reflexivity.
Qed.

Lemma orb_if (x y : bool) : (if x then true else if y then true else false) = x || y.
Proof. destruct x, y; reflexivity. Qed.

(** X18: the IPv4 addresses the classifier refuses are exactly those of
    0.0.0.0/8, 10.0.0.0/8, 127.0.0.0/8, 169.254.0.0/16, 172.16.0.0/12,
    192.168.0.0/16 and 224.0.0.0/24, in the 4-byte and in the 16-byte form of
    the address; every other IPv4 address is taken as public. *)
Theorem isPrivateIP_ip4_exact (a b c d : byte) :
  isPrivateIP (ip4 a b c d) =
    (let A := Byte.to_N a in
     let B := Byte.to_N b in
     let C := Byte.to_N c in
     (A =? 0) || (A =? 10) || (A =? 127) || ((A =? 169) && (B =? 254)) ||
     ((A =? 172) && (16 <=? B) && (B <=? 31)) || ((A =? 192) && (B =? 168)) ||
     ((A =? 224) && (B =? 0) && (C =? 0)))%N /\
  isPrivateIP (ip4in6 a b c d) = isPrivateIP (ip4 a b c d).
Proof.
  split; [| apply isPrivateIP_ip4in6].
  unfold isPrivateIP. rewrite orb_if, inRanges_ip4.
  unfold Net.IsLoopback, Net.IsLinkLocalUnicast, Net.IsLinkLocalMulticast, Net.IsPrivate.
  unfold ip4. rewrite To4_four. unfold Net.at_. simpl nth.
  rewrite land_f0_range. cbv zeta.
  destruct (Byte.to_N a =? 0)%N eqn:A0; destruct (Byte.to_N a =? 10)%N eqn:A10;
    destruct (Byte.to_N a =? 127)%N eqn:A127; destruct (Byte.to_N a =? 169)%N eqn:A169;
    destruct (Byte.to_N a =? 172)%N eqn:A172; destruct (Byte.to_N a =? 192)%N eqn:A192;
    destruct (Byte.to_N a =? 224)%N eqn:A224;
    simpl; try reflexivity;
    destruct (Byte.to_N b =? 254)%N; destruct (Byte.to_N b =? 168)%N;
    destruct (Byte.to_N b =? 0)%N;
    destruct ((16 <=? Byte.to_N b)%N && (Byte.to_N b <=? 31)%N) eqn:R;
    simpl; rewrite ?R; simpl; try reflexivity;
    destruct (Byte.to_N c =? 169)%N; destruct (Byte.to_N c =? 0)%N;
    destruct (Byte.to_N d =? 254)%N; reflexivity.
Qed.

Lemma inRanges_app (l1 l2 : list string) (ip : Net.IP) :
  inRanges (l1 ++ l2) ip = inRanges l1 ip || inRanges l2 ip.
Proof.
  induction l1 as [| cidr l1 IH]; [reflexivity |].
  simpl. destruct (Net.ParseCIDR cidr) as [block |]; [| exact IH].
  destruct (Net.Contains block ip); [reflexivity | exact IH].
Qed.

Lemma inRanges_false (ranges : list string) (ip : Net.IP) :
  (forall cidr block, In cidr ranges -> Net.ParseCIDR cidr = Some block ->
                      Net.Contains block ip = false) ->
  inRanges ranges ip = false.
Proof.
  induction ranges as [| cidr rest IH]; [reflexivity |].
  intros H. simpl.
  destruct (Net.ParseCIDR cidr) as [block |] eqn:E.
  - rewrite (H cidr block (or_introl eq_refl) E). apply IH.
    intros c b Hin. apply H. right. exact Hin.
  - apply IH. intros c b Hin. apply H. right. exact Hin.
Qed.

(** An address that is not an IPv4 address, in either form, lies in no
    network whose number has another length. *)
Lemma Contains_other_length (block : Net.IPNet) (ip : Net.IP) :
  Net.To4 ip = None ->
  length ip <> length (fst (Net.networkNumberAndMask block)) ->
  Net.Contains block ip = false.
Proof.
  intros H4 Hlen. unfold Net.Contains.
  destruct (Net.networkNumberAndMask block) as [nn m]. simpl in Hlen.
  rewrite H4. apply Nat.eqb_neq in Hlen. rewrite Hlen. reflexivity.
Qed.

(** Every range of the table but the last is an IPv4 network. *)
Lemma ranges_are_ip4 (cidr : string) (block : Net.IPNet) :
  In cidr (privateRanges ++ ["169.254.169.254/32"])%list ->
  Net.ParseCIDR cidr = Some block ->
  length (fst (Net.networkNumberAndMask block)) = 4.
Proof.
  simpl. intros H.
  repeat (destruct H as [<- | H];
          [intros E; vm_compute in E; injection E as <-; reflexivity |]).
  contradiction.
Qed.

Lemma To4_None_length (ip : Net.IP) : Net.To4 ip = None -> length ip <> 4.
Proof.
  unfold Net.To4. intros H E. rewrite E in H. discriminate.
Qed.

(** The table of ranges on an address that is not an IPv4 address. *)
Lemma inRanges_not_ip4 (ip : Net.IP) :
  Net.To4 ip = None ->
  inRanges (privateRanges ++ cloudMetadata) ip =
  Net.Contains {| Net.IPNet_IP := metadataV6; Net.IPNet_Mask := repeat xff 16 |} ip.
Proof.
  intros H4.
  change (privateRanges ++ cloudMetadata)%list
    with ((privateRanges ++ ["169.254.169.254/32"]) ++ ["fd00:ec2::254/128"])%list.
  rewrite inRanges_app.
  rewrite (inRanges_false (privateRanges ++ ["169.254.169.254/32"]) ip).
  - rewrite (inRanges_cons "fd00:ec2::254/128" _
               {| Net.IPNet_IP := metadataV6; Net.IPNet_Mask := repeat xff 16 |} _ eq_refl).
    simpl. apply orb_false_r.
  - intros cidr block Hin Hparse. apply Contains_other_length; [exact H4 |].
    rewrite (ranges_are_ip4 cidr block Hin Hparse). apply To4_None_length. exact H4.
Qed.

(** X19: an address whose length is neither 4 nor 16 bytes, the nil address
    included, is never classified as disallowed. *)
Theorem isPrivateIP_malformed (ip : Net.IP) :
  length ip <> 4 -> length ip <> 16 -> isPrivateIP ip = false.
Proof.
  intros H4 H16.
  assert (HTo4 : Net.To4 ip = None).
  { unfold Net.To4, Net.IPv4len, Net.IPv6len.
    apply Nat.eqb_neq in H4, H16. rewrite H4, H16. reflexivity. }
  unfold isPrivateIP. rewrite (inRanges_not_ip4 ip HTo4).
  rewrite Contains_other_length; [| exact HTo4 | exact H16].
  unfold Net.IsLoopback, Net.IsLinkLocalUnicast, Net.IsLinkLocalMulticast,
    Net.IsPrivate, Net.Equal, Net.IPv4len, Net.IPv6len.
  rewrite HTo4.
  apply Nat.eqb_neq in H4, H16.
  change (length Net.IPv6loopback) with 16. rewrite H16, H4. reflexivity.
Qed.

Lemma isPrivateIP_malformed_witness : isPrivateIP [x0a; x00; x00] = false.
Proof. apply isPrivateIP_malformed; simpl; lia. Defined.

(** The IPv6 entry of the table lies within the unique local addresses. *)
Lemma metadataV6_private (ip : Net.IP) :
  Net.To4 ip = None -> length ip = 16 ->
  Net.Contains {| Net.IPNet_IP := metadataV6; Net.IPNet_Mask := repeat xff 16 |} ip = true ->
  Net.IsPrivate ip = true.
Proof.
  intros H4 Hlen. unfold Net.Contains, Net.IsPrivate. rewrite H4.
  change (Net.networkNumberAndMask
            {| Net.IPNet_IP := metadataV6; Net.IPNet_Mask := repeat xff 16 |})
    with (metadataV6, repeat xff 16).
  change (length metadataV6) with 16. rewrite Hlen. simpl negb. cbv iota.
  destruct ip as [| i0 rest]; [discriminate Hlen |].
  unfold metadataV6. simpl repeat.
  change (Net.sameNetwork (xfd :: ?x) (xff :: ?y) (i0 :: rest))
    with (if negb (Net.band xfd xff =? Net.band i0 xff)%N then false
          else Net.sameNetwork x y rest).
  rewrite band_ff. change (Byte.to_N xfd) with 253%N.
  destruct (Byte.to_N i0 =? 253)%N eqn:E; [| discriminate].
  intros _. apply N.eqb_eq in E. unfold Net.IPv6len, Net.at_. simpl nth.
  rewrite E. reflexivity.
Qed.

(** X20: on a 16-byte address that is not an IPv4 address in IPv6 form, the
    classifier is the disjunction of the four predicates of the [net]
    package: loopback ([::1]), link-local unicast ([fe80::/10]), link-local
    multicast ([ff02::/16] and the like) and unique local ([fc00::/7]); the
    table of ranges adds nothing. *)
Theorem isPrivateIP_ip6 (ip : Net.IP) :
  length ip = 16 -> Net.To4 ip = None ->
  isPrivateIP ip =
  Net.bytesEqual ip Net.IPv6loopback ||
  ((Net.at_ ip 0 =? 254)%N && (N.land (Net.at_ ip 1) 192 =? 128)%N) ||
  ((Net.at_ ip 0 =? 255)%N && (N.land (Net.at_ ip 1) 15 =? 2)%N) ||
  (N.land (Net.at_ ip 0) 254 =? 252)%N.
Proof.
  intros Hlen H4. unfold isPrivateIP. rewrite orb_if, (inRanges_not_ip4 ip H4).
  pose proof (metadataV6_private ip H4 Hlen) as Hmeta.
  unfold Net.IsLoopback, Net.IsLinkLocalUnicast, Net.IsLinkLocalMulticast,
    Net.IsPrivate, Net.Equal, Net.IPv6len in *.
  rewrite H4 in *. change (length Net.IPv6loopback) with 16. rewrite Hlen in *.
  simpl Nat.eqb in *. cbv iota in *. rewrite !andb_true_l in *.
  destruct (Net.Contains _ ip); [| reflexivity].
  rewrite (Hmeta eq_refl), !orb_true_r. reflexivity.
Qed.

Lemma isPrivateIP_ip6_witness :
  isPrivateIP [x26; x07; xf8; xb0; x40; x04; x08; x00;
               x00; x00; x00; x00; x00; x00; x20; x0e] = false.
Proof.
  rewrite isPrivateIP_ip6; reflexivity.
Defined.

(** ** The pre-flight validation and missing credentials *)

Lemma parseConfig_Repository_nonempty (w : World) (raw : gmap string any) :
  String.eqb (Repository (parseConfig w raw)) "" = false.
Proof.
  apply String.eqb_neq. unfold parseConfig. simpl. rewrite parse_field.
  destruct (nonEmptyString (raw !! "repository")) as [v |] eqn:E; [| discriminate].
  apply nonEmptyString_Some in E. tauto.
Qed.

Lemma parseConfig_DistPath_nonempty (w : World) (raw : gmap string any) :
  String.eqb (DistPath (parseConfig w raw)) "" = false.
Proof.
  apply String.eqb_neq. unfold parseConfig. simpl. rewrite parse_field.
  destruct (nonEmptyString (raw !! "dist_path")) as [v |] eqn:E; [| discriminate].
  apply nonEmptyString_Some in E. tauto.
Qed.

Lemma Validate_description (w : World) (raw : gmap string any) :
  Validate w raw =
  (log (validateRepositoryURL w (Repository (parseConfig w raw))),
   (Build (violations w (parseConfig w raw)), None)).
Proof.
  unfold Validate. cbv zeta.
  rewrite parseConfig_Repository_nonempty, parseConfig_DistPath_nonempty.
  unfold violations. generalize (parseConfig w raw). intros cfg.
  destruct (validateRepositoryURL w (Repository cfg)) as [l e].
  unfold bind, ret, log, value, NewValidationBuilder, AddError.
  destruct (String.eqb (Username cfg) ""), (String.eqb (Password cfg) ""),
    e, (validateDistPath (DistPath cfg)); simpl; rewrite ?app_nil_r; reflexivity.
Qed.

(** X21: the pre-flight [Validate] and the gate of [Execute] agree: a raw
    configuration is reported valid exactly when its resolved form passes
    [validateConfig]; both ask the resolver the same questions and neither
    starts a subprocess. *)
Theorem Validate_agrees_with_gate (w : World) (raw : gmap string any) :
  (Valid (fst (value (Validate w raw))) = true <->
   value (validateConfig w (parseConfig w raw)) = None) /\
  log (Validate w raw) = log (validateConfig w (parseConfig w raw)) /\
  invokesExecutor (Validate w raw) = false.
Proof.
  rewrite Validate_description. generalize (parseConfig w raw). intros cfg.
  split; [| split].
  - rewrite validateConfig_value.
    change (fst (value (log (validateRepositoryURL w (Repository cfg)),
                        (Build (violations w cfg), @None error))))
      with (Build (violations w cfg)).
    unfold violations, Build, Valid.
    destruct (String.eqb (Username cfg) ""), (String.eqb (Password cfg) ""),
      (value (validateRepositoryURL w (Repository cfg))),
      (validateDistPath (DistPath cfg));
      split; intros H; solve [reflexivity | discriminate H].
  - change (log (log (validateRepositoryURL w (Repository cfg)),
                 (Build (violations w cfg), @None error)))
      with (log (validateRepositoryURL w (Repository cfg))).
    unfold validateConfig. rewrite log_bind.
    destruct (value (validateRepositoryURL w (Repository cfg)));
      [symmetry; apply app_nil_r |].
    destruct (validateDistPath (DistPath cfg)); [symmetry; apply app_nil_r |].
    destruct (String.eqb (Username cfg) ""); [symmetry; apply app_nil_r |].
    destruct (String.eqb (Password cfg) ""); symmetry; apply app_nil_r.
  - apply (validateRepositoryURL_no_run w (Repository cfg)).
Qed.

(** X22: [Validate] reports every violation, not only the first: the user
    name, then the password, then the repository URL with the message of the
    URL validator, then the dist path with the message of the path
    validator.  The URL and the path of a resolved configuration are never
    empty, so both are always checked. *)
Theorem Validate_reports_all (w : World) (raw : gmap string any) :
  Errors (fst (value (Validate w raw))) = violations w (parseConfig w raw) /\
  Valid (fst (value (Validate w raw))) =
    match violations w (parseConfig w raw) with [] => true | _ :: _ => false end.
Proof. rewrite Validate_description. split; reflexivity. Qed.

Lemma prefix_append (s t : string) : String.prefix s (s ++ t) = true.
Proof.
  induction s as [| c s IH]; [apply prefix_empty |].
  change (String c s ++ t) with (String c (s ++ t)).
  rewrite prefix_cons. exact IH.
Qed.

Lemma parseConfig_Username (w : World) (raw : gmap string any) :
  Username (parseConfig w raw) =
  match nonEmptyString (raw !! "username") with
  | Some s => s
  | None => os_Getenv w "PYPI_USERNAME"
  end.
Proof. unfold parseConfig. simpl. rewrite getenv_fallback, parse_field. reflexivity. Qed.

Lemma parseConfig_Password (w : World) (raw : gmap string any) :
  Password (parseConfig w raw) =
  match nonEmptyString (raw !! "password") with
  | Some s => s
  | None => os_Getenv w "PYPI_PASSWORD"
  end.
Proof. unfold parseConfig. simpl. rewrite getenv_fallback, parse_field. reflexivity. Qed.

(** X23: when a credential is given neither as a non-empty string of the
    configuration nor by its environment variable, [Execute] on the
    post-publish hook fails with a validation error and starts no
    subprocess, dry run or not. *)
Theorem missing_credentials (w : World) (p : PyPIPlugin) (req : ExecuteRequest) :
  (nonEmptyString (ReqConfig req !! "username") = None /\
   os_Getenv w "PYPI_USERNAME" = "") \/
  (nonEmptyString (ReqConfig req !! "password") = None /\
   os_Getenv w "PYPI_PASSWORD" = "") ->
  let r := Execute w (ReqHook req) p req in
  Success (fst (value r)) = false /\
  Strings.HasPrefix (Error (fst (value r))) "configuration validation failed: " = true /\
  runsOf (log r) = [].
Proof.
  intros Hmiss r.
  assert (Hcred : Username (parseConfig w (ReqConfig req)) = "" \/
                  Password (parseConfig w (ReqConfig req)) = "").
  { pose proof (parseConfig_Username w (ReqConfig req)) as HU.
    pose proof (parseConfig_Password w (ReqConfig req)) as HP.
    destruct Hmiss as [[Hn He] | [Hn He]]; rewrite Hn, He in *; auto. }
  assert (Hbad : exists msg,
             value (validateConfig w (parseConfig w (ReqConfig req))) = Some msg).
  { rewrite validateConfig_value.
    destruct (value (validateRepositoryURL w _)); [eauto |].
    destruct (validateDistPath _); [eauto |].
    destruct Hcred as [-> | ->]; simpl; [eauto |].
    destruct (String.eqb _ ""); eauto. }
  destruct Hbad as [msg Hmsg].
  unfold r. rewrite (Execute_post_publish w (ReqHook req) p req eq_refl).
  rewrite uploadPackage_runsOf, Hmsg.
  destruct (uploadPackage_afterGate w p (parseConfig w (ReqConfig req))
              (ReqContext req) (ReqDryRun req)) as [_ Hval].
  rewrite Hval, Hmsg.
  split; [reflexivity |]. split; [| reflexivity].
  apply prefix_append.
Qed.

Lemma missing_credentials_witness :
  Success (fst (value (Execute Sample.world "post-publish" Sample.plugin
                         {| ReqHook := "post-publish";
                            ReqConfig := <["username" := AString "testuser"]> ∅;
                            ReqContext := {| Version := "v1.0.0" |};
                            ReqDryRun := false |}))) = false.
Proof.
  apply (missing_credentials Sample.world Sample.plugin
           {| ReqHook := "post-publish";
              ReqConfig := <["username" := AString "testuser"]> ∅;
              ReqContext := {| Version := "v1.0.0" |};
              ReqDryRun := false |}).
  right. split; reflexivity.
Defined.

(** ** Paths that are accepted *)

Lemma cleanLoop_cons (rooted : bool) (c : ascii) (rest : string) (inElem : bool)
      (out : string) (dotdot : nat) :
  Filepath.cleanLoop rooted (String c rest) inElem out dotdot =
  let w := String.length out in
  let element (_ : unit) :=
    let out1 :=
      if (rooted && negb (w =? 1)%nat) || (negb rooted && negb (w =? 0)%nat)
      then out ++ String Filepath.Separator EmptyString else out in
    Filepath.cleanLoop rooted rest true (out1 ++ String c EmptyString) dotdot in
  if inElem then
    if Filepath.IsPathSeparator c
    then Filepath.cleanLoop rooted rest false out dotdot
    else Filepath.cleanLoop rooted rest true (out ++ String c EmptyString) dotdot
  else if Filepath.IsPathSeparator c then
    Filepath.cleanLoop rooted rest false out dotdot
  else if Ascii.eqb c "."%char && Filepath.atElementEnd rest then
    Filepath.cleanLoop rooted rest false out dotdot
  else
    match rest with
    | String c2 rest2 =>
        if Ascii.eqb c "."%char && Ascii.eqb c2 "."%char && Filepath.atElementEnd rest2
        then
          if (dotdot <? w)%nat then
            Filepath.cleanLoop rooted rest2 false
              (Strings.upto (Filepath.backtrack out dotdot (w - 1)) out) dotdot
          else if negb rooted then
            let out1 :=
              if (0 <? w)%nat then out ++ String Filepath.Separator EmptyString else out in
            let out2 := out1 ++ ".." in
            Filepath.cleanLoop rooted rest2 false out2 (String.length out2)
          else Filepath.cleanLoop rooted rest2 false out dotdot
        else element tt
    | EmptyString => element tt
    end.
Proof. reflexivity. Qed.

Lemma append_cons (c : ascii) (x y : string) : String c x ++ y = String c (x ++ y).
Proof. reflexivity. Qed.

Lemma append_empty_r (x : string) : x ++ "" = x.
Proof. induction x as [| c x IH]; [reflexivity |]. rewrite append_cons, IH. reflexivity. Qed.

Lemma append_assoc (x y z : string) : (x ++ y) ++ z = x ++ (y ++ z).
Proof.
  induction x as [| c x IH]; [reflexivity |].
  rewrite !append_cons, IH. reflexivity.
Qed.

Lemma strip_app (x y : string) :
  Strings.ReplaceAll (x ++ y) "*" "" =
  Strings.ReplaceAll x "*" "" ++ Strings.ReplaceAll y "*" "".
Proof.
  induction x as [| c x IH]; [reflexivity |].
  rewrite append_cons, !strip_cons, IH.
  destruct (Ascii.eqb c "*"%char); reflexivity.
Qed.

Lemma Contains_unfold (c : ascii) (s sub : string) :
  Strings.Contains (String c s) sub = String.prefix sub (String c s) || Strings.Contains s sub.
Proof. reflexivity. Qed.

Lemma prefix_app (sub x y : string) :
  String.prefix sub x = true -> String.prefix sub (x ++ y) = true.
Proof.
  revert x. induction sub as [| a sub IH]; intros x H; [apply prefix_empty |].
  destruct x as [| b x]; [discriminate H |].
  rewrite append_cons. rewrite prefix_String in *.
  destruct (ascii_dec a b); [apply IH; exact H | discriminate H].
Qed.

Lemma Contains_app_l (x y sub : string) :
  Strings.Contains x sub = true -> Strings.Contains (x ++ y) sub = true.
Proof.
  induction x as [| c x IH]; intros H.
  - apply Contains_prefix. apply prefix_app.
    change (Strings.Contains "" sub) with (String.prefix sub "" || false) in H.
    rewrite orb_false_r in H. exact H.
  - rewrite append_cons, Contains_unfold. rewrite Contains_unfold in H.
    apply orb_true_iff in H. apply orb_true_iff. destruct H as [H | H].
    + left. apply (prefix_app sub (String c x) y H).
    + right. apply IH. exact H.
Qed.

Lemma Contains_app_r (x y sub : string) :
  Strings.Contains y sub = true -> Strings.Contains (x ++ y) sub = true.
Proof.
  intros H. induction x as [| c x IH]; [exact H |].
  rewrite append_cons. apply Contains_cons. exact IH.
Qed.

(** Two dots in a row do not go across a separator. *)
Lemma Contains_dotdot_split (x y : string) :
  Strings.Contains (x ++ String "/"%char y) ".." = true ->
  Strings.Contains x ".." = true \/ Strings.Contains y ".." = true.
Proof.
  induction x as [| a x IH]; intros H.
  - change ("" ++ String "/"%char y) with (String "/"%char y) in H.
    rewrite Contains_unfold in H. apply orb_true_iff in H. destruct H as [H | H].
    + apply prefix_dotdot_inv in H. destruct H as [t H]. discriminate H.
    + right. exact H.
  - rewrite append_cons, Contains_unfold in H. apply orb_true_iff in H.
    destruct H as [H | H].
    + left. apply prefix_dotdot_inv in H. destruct H as [t H].
      destruct x as [| b x].
      * discriminate H.
      * rewrite append_cons in H. injection H as -> -> _.
        apply Contains_prefix. rewrite !prefix_cons. apply prefix_empty.
    + destruct (IH H) as [H' | H']; [left; apply Contains_cons; exact H' | right; exact H'].
Qed.

Lemma adjacentDots_app_l (x y : string) :
  adjacentDots x = true -> adjacentDots (x ++ y) = true.
Proof. unfold adjacentDots. rewrite strip_app. apply Contains_app_l. Qed.

Lemma adjacentDots_app_r (x y : string) :
  adjacentDots y = true -> adjacentDots (x ++ y) = true.
Proof. unfold adjacentDots. rewrite strip_app. apply Contains_app_r. Qed.

Lemma adjacentDots_cons (c : ascii) (y : string) :
  adjacentDots y = true -> adjacentDots (String c y) = true.
Proof. apply (adjacentDots_app_r (String c EmptyString) y). Qed.

Lemma adjacentDots_split (x y : string) :
  adjacentDots (x ++ String "/"%char y) = true ->
  adjacentDots x = true \/ adjacentDots y = true.
Proof.
  unfold adjacentDots. rewrite strip_app, strip_cons.
  change (Ascii.eqb "/" "*") with false. cbv iota. apply Contains_dotdot_split.
Qed.

Lemma adjacentDots_dotdot (rest : string) :
  adjacentDots (String "."%char (String "."%char rest)) = true.
Proof.
  unfold adjacentDots. rewrite !strip_cons.
  change (Ascii.eqb "." "*") with false. cbv iota.
  apply Contains_prefix. rewrite !prefix_cons. apply prefix_empty.
Qed.

Lemma length_zero (s : string) : String.length s = 0 -> s = "".
Proof. destruct s; [reflexivity | discriminate]. Qed.

Lemma IsPathSeparator_true (c : ascii) :
  Filepath.IsPathSeparator c = true -> c = "/"%char.
Proof. unfold Filepath.IsPathSeparator, Filepath.Separator. apply Ascii.eqb_eq. Qed.

(** Cleaning a relative path brings no two dots together: while an element
    is copied, the output and the rest of the input read as one string;
    between elements they are apart. *)
Lemma cleanLoop_dots (path : string) :
  forall (inElem : bool) (out : string) (dotdot : nat),
    adjacentDots (Filepath.cleanLoop false path inElem out dotdot) = true ->
    if inElem then adjacentDots (out ++ path) = true
    else adjacentDots out = true \/ adjacentDots path = true.
Proof.
  induction path as [| c rest IH]; intros inElem out dotdot H.
  - simpl in H. destruct inElem; [rewrite append_empty_r; exact H | left; exact H].
  - rewrite cleanLoop_cons in H. cbv zeta in H.
    destruct inElem.
    + destruct (Filepath.IsPathSeparator c) eqn:Hsep.
      * apply IH in H. destruct H as [H | H].
        -- apply adjacentDots_app_l. exact H.
        -- apply adjacentDots_app_r. apply adjacentDots_cons. exact H.
      * apply IH in H. rewrite append_assoc in H. exact H.
    + destruct (Filepath.IsPathSeparator c) eqn:Hsep.
      { apply IH in H. destruct H as [H | H]; [left; exact H |].
        right. apply adjacentDots_cons. exact H. }
      destruct (Ascii.eqb c "."%char && Filepath.atElementEnd rest) eqn:Hdot.
      { apply IH in H. destruct H as [H | H]; [left; exact H |].
        right. apply adjacentDots_cons. exact H. }
      assert (Helem :
        adjacentDots
          (Filepath.cleanLoop false rest true
             ((if (false && negb (String.length out =? 1)%nat)
                  || (negb false && negb (String.length out =? 0)%nat)
               then out ++ String Filepath.Separator EmptyString else out)
              ++ String c EmptyString) dotdot) = true ->
        adjacentDots out = true \/ adjacentDots (String c rest) = true).
      { clear H. intros H. apply IH in H.
        destruct (String.length out =? 0)%nat eqn:Hw; cbn [andb orb negb] in H.
        - apply Nat.eqb_eq, length_zero in Hw. subst out. right. exact H.
        - rewrite !append_assoc in H. apply adjacentDots_split in H. exact H. }
      destruct rest as [| c2 rest2]; [exact (Helem H) |].
      destruct (Ascii.eqb c "."%char && Ascii.eqb c2 "."%char &&
                Filepath.atElementEnd rest2) eqn:Hdd; [| exact (Helem H)].
      apply andb_true_iff in Hdd. destruct Hdd as [Hdd _].
      apply andb_true_iff in Hdd. destruct Hdd as [Hc Hc2].
      apply Ascii.eqb_eq in Hc, Hc2. subst c c2.
      right. apply adjacentDots_dotdot.
Qed.

Lemma Clean_dots (path : string) :
  Filepath.IsAbs path = false ->
  adjacentDots (Filepath.Clean path) = true -> adjacentDots path = true.
Proof.
  intros Habs. unfold Filepath.Clean.
  destruct path as [| c rest]; [intros H; discriminate H |].
  assert (Hroot : Filepath.IsPathSeparator c = false).
  { unfold Filepath.IsAbs, Strings.HasPrefix in Habs. rewrite prefix_String in Habs.
    unfold Filepath.IsPathSeparator, Filepath.Separator.
    destruct (ascii_dec "/"%char c) as [<- | Hne].
    - rewrite prefix_empty in Habs. discriminate Habs.
    - apply Ascii.eqb_neq. congruence. }
  cbv zeta. rewrite Hroot.
  destruct (String.length (Filepath.cleanLoop false (String c rest) false "" 0) =? 0)%nat.
  - intros H. discriminate H.
  - intros H. apply cleanLoop_dots in H. destruct H as [H | H]; [discriminate H | exact H].
Qed.

Lemma Contains_slash_dotdot (s : string) :
  Strings.Contains s "/.." = true -> Strings.Contains s ".." = true.
Proof.
  induction s as [| c s IH]; intros H; [discriminate H |].
  rewrite Contains_unfold in H. apply orb_true_iff in H. destruct H as [H | H].
  - apply prefix_slash_dotdot_inv in H. destruct H as [t H]. injection H as -> ->.
    apply Contains_cons. apply Contains_prefix. rewrite !prefix_cons. apply prefix_empty.
  - apply Contains_cons. apply IH. exact H.
Qed.

(** X24: the paths that are surely accepted.  A path that is not empty, at
    most 256 bytes long, made of allowed bytes only, not absolute, and in
    which no two dots stand side by side (the [*]s set aside) passes the
    validator: cleaning it cannot bring a [..] about. *)
Theorem validateDistPath_accepts (path : string) :
  path <> "" ->
  (String.length path <= 256)%nat ->
  distPathPattern_MatchString path = true ->
  Filepath.IsAbs path = false ->
  adjacentDots path = false ->
  validateDistPath path = None.
Proof.
  intros Hne Hlen Hchars Habs Hdots.
  rewrite (validateDistPath_checked path Hne Hlen Hchars), Habs.
  assert (Hclean : adjacentDots (Filepath.Clean path) = false).
  { destruct (adjacentDots (Filepath.Clean path)) eqn:E; [| reflexivity].
    rewrite (Clean_dots path Habs E) in Hdots. discriminate Hdots. }
  assert (Hdet : detectsTraversal path = false).
  { unfold detectsTraversal. cbv zeta. apply orb_false_iff. unfold adjacentDots in Hclean.
    split.
    - destruct (Strings.HasPrefix _ "..") eqn:E; [| reflexivity].
      unfold Strings.HasPrefix in E. apply Contains_prefix in E. congruence.
    - change (String Filepath.Separator EmptyString ++ "..") with "/..".
      destruct (Strings.Contains _ "/..") eqn:E; [| reflexivity].
      apply Contains_slash_dotdot in E. congruence. }
  rewrite Hdet. reflexivity.
Qed.

Lemma validateDistPath_accepts_witness :
  validateDistPath "build/./dist//*.tar.gz" = None.
Proof.
  apply validateDistPath_accepts.
  - discriminate.
  - vm_compute. lia.
  - vm_compute. reflexivity.
  - vm_compute. reflexivity.
  - vm_compute. reflexivity.
Defined.

(** ** The order of the checks of the gate *)

Lemma validateConfig_log (w : World) (cfg : Config) :
  log (validateConfig w cfg) = log (validateRepositoryURL w (Repository cfg)).
Proof.
  unfold validateConfig. rewrite log_bind.
  destruct (value (validateRepositoryURL w (Repository cfg))); [apply app_nil_r |].
  destruct (validateDistPath (DistPath cfg)); [apply app_nil_r |].
  destruct (String.eqb (Username cfg) ""); [apply app_nil_r |].
  destruct (String.eqb (Password cfg) ""); apply app_nil_r.
Qed.

(** X25: the gate of [Execute] stops at the first check that fails, in the
    order repository URL, dist path, user name, password: a rejected URL is
    what is reported even when the path is bad or the credentials are
    missing, and a missing credential is reported only for a good URL and a
    good path.  The resolver is asked whatever the credentials are. *)
Theorem validateConfig_order (w : World) (cfg : Config) :
  (forall e, value (validateRepositoryURL w (Repository cfg)) = Some e ->
             value (validateConfig w cfg) = Some ("invalid repository URL: " ++ e)) /\
  (forall e, value (validateRepositoryURL w (Repository cfg)) = None ->
             validateDistPath (DistPath cfg) = Some e ->
             value (validateConfig w cfg) = Some ("invalid dist path: " ++ e)) /\
  (value (validateRepositoryURL w (Repository cfg)) = None ->
   validateDistPath (DistPath cfg) = None ->
   Username cfg = "" ->
   value (validateConfig w cfg) = Some "username is required") /\
  (value (validateRepositoryURL w (Repository cfg)) = None ->
   validateDistPath (DistPath cfg) = None ->
   Username cfg <> "" -> Password cfg = "" ->
   value (validateConfig w cfg) = Some "password is required") /\
  log (validateConfig w cfg) = log (validateRepositoryURL w (Repository cfg)).
Proof.
  rewrite validateConfig_value. repeat split.
  - intros e ->. reflexivity.
  - intros e -> ->. reflexivity.
  - intros -> -> ->. reflexivity.
  - intros -> -> Hu ->. apply String.eqb_neq in Hu. rewrite Hu. reflexivity.
  - apply validateConfig_log.
Qed.

Lemma validateConfig_order_witness :
  value (validateConfig Sample.world
           {| Username := ""; Password := ""; Repository := "http://pypi.example.com/";
              DistPath := "/etc/passwd"; SkipExisting := false |})
  = Some "invalid repository URL: only HTTPS URLs are allowed (got http)".
Proof.
  apply (proj1 (validateConfig_order Sample.world _)).
  vm_compute. reflexivity.
Defined.
